(** * MoonGuard verification pipeline: a shallow embedding

    The development follows the Python sources file by file:
    [file_watcher.py] (the identifier decoder [parse_filename]),
    [config.py] (the registry table and the search order), [gov_api.py]
    (the registry resolver), [ai_analyzer.py] (the vision adapter),
    [database.py] (the event store) and [main.py] (the orchestrator
    [process_new_file]).

    Conventions.
    - A Python [str] is a Rocq [string]; one character of the model is one
      character of the Python string.  Text is read as ASCII: only the
      characters [0]-[9] count as digits.  Paths are POSIX paths.
    - Python's [-1] answers ([str.find]) and integer fields are [Z].
    - A [dict] with string keys is a [gmap string _]; the set of paths that
      exist on disk is a [gset string].
    - Code that awaits a collaborator (registry HTTP service, vision service)
      reads the collaborator's answer from an environment [Env]; code that
      changes the disk, the store, or the notification channel threads a
      [State]. *)

From Stdlib Require Import ZArith Ascii String.
From stdpp Require Import gmap strings list sorting.

Open Scope string_scope.
Open Scope list_scope.
Open Scope Z_scope.

(** ** Python string operations used by the sources *)

Module Py.

Definition len (s : string) : Z := Z.of_nat (String.length s).

(** [s[:n]] and [s[n:]] for [0 <= n]. *)
Definition take (n : nat) (s : string) : string := substring 0 n s.

Fixpoint drop (n : nat) (s : string) : string :=
  match n, s with
  | O, _ => s
  | S _, EmptyString => EmptyString
  | S n', String _ s' => drop n' s'
  end.

(** [s[a:b]] for [0 <= a], [0 <= b]. *)
Definition slice (a b : nat) (s : string) : string := take (b - a) (drop a s).

(** [s[-n:]]. *)
Definition last_chars (n : nat) (s : string) : string :=
  drop (String.length s - n) s.

(** [s.find(c)] for a one-character needle: first index, or [-1]. *)
Fixpoint find_from (c : ascii) (s : string) (i : Z) : Z :=
  match s with
  | EmptyString => -1
  | String d s' => if Ascii.eqb d c then i else find_from c s' (i + 1)
  end.

Definition find (c : ascii) (s : string) : Z := find_from c s 0.

(** [s.rfind(c)]: last index, or [-1]. *)
Fixpoint rfind_from (c : ascii) (s : string) (i last : Z) : Z :=
  match s with
  | EmptyString => last
  | String d s' => rfind_from c s' (i + 1) (if Ascii.eqb d c then i else last)
  end.

Definition rfind (c : ascii) (s : string) : Z := rfind_from c s 0 (-1).

(** [s.split(sep)] for a one-character separator: never the empty list. *)
Fixpoint split (sep : ascii) (s : string) : list string :=
  match s with
  | EmptyString => [EmptyString]
  | String c s' =>
      if Ascii.eqb c sep then EmptyString :: split sep s'
      else match split sep s' with
           | [] => [String c EmptyString]
           | p :: ps => String c p :: ps
           end
  end.

Definition is_digit_char (c : ascii) : bool :=
  let n := nat_of_ascii c in (48 <=? n)%nat && (n <=? 57)%nat.

Fixpoint all_digits (s : string) : bool :=
  match s with
  | EmptyString => true
  | String c s' => is_digit_char c && all_digits s'
  end.

(** [s.isdigit()]: non-empty and every character a digit. *)
Definition isdigit (s : string) : bool :=
  match s with
  | EmptyString => false
  | _ => all_digits s
  end.

Fixpoint digits_value (acc : Z) (s : string) : Z :=
  match s with
  | EmptyString => acc
  | String c s' => digits_value (10 * acc + Z.of_nat (nat_of_ascii c - 48)) s'
  end.

(** [int(s)] on the strings that reach it in [process_new_file], which are
    non-empty strings of digits; [None] stands for [ValueError]. *)
Definition int_of_digits (s : string) : option Z :=
  if isdigit s then Some (digits_value 0 s) else None.

(** [bool(s)] of a string. *)
Definition truthy_str (s : string) : bool :=
  match s with EmptyString => false | _ => true end.

(** [pathlib]: the final component of a POSIX path ([Path(p).name]);
    empty and ["."] components are dropped when the path is parsed. *)
Definition path_parts (p : string) : list string :=
  List.filter (fun c => negb (String.eqb c "") && negb (String.eqb c "."))
              (split "/" p).

Definition path_name (p : string) : string := List.last (path_parts p) "".

(** [Path(p).stem]: the name without its last suffix; a leading dot or a
    trailing dot does not start a suffix. *)
Definition stem (p : string) : string :=
  let name := path_name p in
  let i := rfind "." name in
  if (0 <? i) && (i <? len name - 1) then take (Z.to_nat i) name else name.

End Py.

(** ** file_watcher.py: the identifier decoder *)

Record FileMeta := {
  location_id : string;
  raw_date : string;
  display_time : string;
  display_date : string;
  lpr : string
}.

(** The dictionary returned by [parse_filename]: ["valid": False] with an
    error text, or ["valid": True] with the extracted fields. *)
Inductive Parsed :=
| Invalid (error : string)
| Valid (meta : FileMeta).

Definition parse_filename (filename : string) : Parsed :=
  let base_name := Py.stem filename in
  let parts := Py.split "_" base_name in
  match parts with
  | p0 :: p1 :: timestamp_full :: p3 :: _ =>
      let location_id := p0 +:+ "_" +:+ p1 in
      if Py.len timestamp_full <? 14 then Invalid "פורמט זמן לא תקין"
      else
        let date_str := Py.take 8 timestamp_full in
        let time_str := Py.slice 8 14 timestamp_full in
        let formatted_time :=
          Py.take 2 time_str +:+ ":" +:+ Py.slice 2 4 time_str +:+ ":" +:+ Py.drop 4 time_str in
        let formatted_date :=
          Py.drop 6 date_str +:+ "/" +:+ Py.slice 4 6 date_str +:+ "/" +:+ Py.take 4 date_str in
        Valid {| location_id := location_id;
                 raw_date := date_str;
                 display_time := formatted_time;
                 display_date := formatted_date;
                 lpr := p3 |}
  | _ => Invalid "פורמט שם קובץ לא תקין"
  end.

Definition is_valid (p : Parsed) : bool :=
  match p with Valid _ => true | Invalid _ => false end.

(** ** models.py *)

Inductive EventStatus :=
| VERIFIED | ALERT | UNKNOWN | PROCESSING | ERROR
| NO_LICENSE | OFF_ROAD | FAKE_PLATE.

#[export] Instance EventStatus_eq_dec : EqDecision EventStatus.
Proof. solve_decision. Defined.

(** [status.value], the text stored in the [status] column. *)
Definition status_value (s : EventStatus) : string :=
  match s with
  | VERIFIED => "VERIFIED" | ALERT => "ALERT" | UNKNOWN => "UNKNOWN"
  | PROCESSING => "PROCESSING" | ERROR => "ERROR"
  | NO_LICENSE => "NO_LICENSE" | OFF_ROAD => "OFF_ROAD"
  | FAKE_PLATE => "FAKE_PLATE"
  end.

Module GovData.
Record t := mk {
  found : bool;
  manufacturer : option string;
  model : option string;
  color : option string;
  year : option string;
  error : option string;
  source_db : option string;
  alert_type : option string;
  alert_message : option string
}.

(** [GovData()] with every field at its default. *)
Definition default : t :=
  mk false None None None None None None None None.
End GovData.

Module AIAnalysis.
Record t := mk {
  scene_description : string;
  detected_manufacturer : option string;
  target_found : bool;
  confidence : Z;
  best_match_details : option string;
  reasoning : option string
}.

Definition default : t := mk "" None false 0 None None.
End AIAnalysis.

Module VehicleEvent.
Record t := mk {
  id : option Z;
  timestamp : Z;
  display_time : string;
  display_date : string;
  location_id : string;
  lpr : string;
  gov_data : GovData.t;
  ai_analysis : AIAnalysis.t;
  status : EventStatus;
  image_filename : string;
  image_path : option string
}.

Definition set_id (v : option Z) (e : t) : t :=
  mk v (timestamp e) (display_time e) (display_date e) (location_id e) (lpr e)
     (gov_data e) (ai_analysis e) (status e) (image_filename e) (image_path e).

Definition set_gov_data (g : GovData.t) (e : t) : t :=
  mk (id e) (timestamp e) (display_time e) (display_date e) (location_id e) (lpr e)
     g (ai_analysis e) (status e) (image_filename e) (image_path e).

Definition set_ai_analysis (a : AIAnalysis.t) (e : t) : t :=
  mk (id e) (timestamp e) (display_time e) (display_date e) (location_id e) (lpr e)
     (gov_data e) a (status e) (image_filename e) (image_path e).

Definition set_status (s : EventStatus) (e : t) : t :=
  mk (id e) (timestamp e) (display_time e) (display_date e) (location_id e) (lpr e)
     (gov_data e) (ai_analysis e) s (image_filename e) (image_path e).
End VehicleEvent.

Record StatsResponse := {
  total_events : Z;
  verified_count : Z;
  alert_count : Z;
  unknown_count : Z
}.

(** ** config.py *)

Module Config.

(** One entry of [GOV_DATABASES]; [db_info.get("alert_type")] and
    [db_info.get("alert_message")] answer [None] both for a key bound to
    [None] and for an absent key. *)
Record DbInfo := {
  resource_id : string;
  name : string;
  alert_type : option string;
  alert_message : option string
}.

Definition GOV_DATABASES : gmap string DbInfo :=
  list_to_map [
    ("main",
      {| resource_id := "053cea08-09bc-40ec-8f7a-156f0677aff3";
         name := "מאגר ראשי";
         alert_type := None; alert_message := None |});
    ("inactive",
      {| resource_id := "f6efe89a-fb3d-43a4-bb61-9bf12a9b9099";
         name := "רכבים לא פעילים";
         alert_type := Some "NO_LICENSE";
         alert_message := Some "רכב ללא טסט/רשיון מעל שנה" |});
    ("off_road_1",
      {| resource_id := "851ecab1-0622-4dbe-a6c7-f950cf82abf9";
         name := "מורדים מכביש #1";
         alert_type := Some "OFF_ROAD";
         alert_message := Some "רכב מורד מהכביש" |});
    ("off_road_2",
      {| resource_id := "4e6b9724-4c1e-43f0-909a-154d4cc4e046";
         name := "מורדים מכביש #2";
         alert_type := Some "OFF_ROAD";
         alert_message := Some "רכב מורד מהכביש" |});
    ("off_road_3",
      {| resource_id := "ec8cbc34-72e1-4b69-9c48-22821ba0bd6c";
         name := "מורדים מכביש #3";
         alert_type := Some "OFF_ROAD";
         alert_message := Some "רכב מורד מהכביש" |});
    ("public",
      {| resource_id := "cf29862d-ca25-4691-84f6-1be60dcb4a1e";
         name := "רכבים ציבוריים";
         alert_type := None; alert_message := None |});
    ("motorcycle",
      {| resource_id := "bf9df4e2-d90d-4c0a-a400-19e15af8e95f";
         name := "דו גלגליים";
         alert_type := None; alert_message := None |});
    ("heavy",
      {| resource_id := "cd3acc5c-03c3-4c89-9c54-d40f93c0d790";
         name := "רכבים כבדים (מעל 3.5 טון)";
         alert_type := None; alert_message := None |});
    ("heavy_2",
      {| resource_id := "03adc637-b6fe-402b-9937-7c3d3afc9140";
         name := "רכבים כבדים #2";
         alert_type := None; alert_message := None |});
    ("private_extended",
      {| resource_id := "0866573c-40cd-4ca8-91d2-9dd2d7a492e5";
         name := "פרטיים ומסחריים - מורחב";
         alert_type := None; alert_message := None |})
  ].

Definition GOV_SEARCH_ORDER : list string :=
  [ "main"; "private_extended"; "inactive";
    "off_road_1"; "off_road_2"; "off_road_3";
    "public"; "motorcycle"; "heavy"; "heavy_2" ].

Definition LPR_VALID_LENGTHS : list Z := [7; 8].

Definition AI_CONFIDENCE_THRESHOLD : Z := 75.

(** [PROCESSED_FOLDER], at its default [./processed]. *)
Definition PROCESSED_FOLDER : string := "processed".

End Config.

(** ** The collaborators and the state a run works on *)

(** A decoded JSON value, as [json.loads] builds it (numbers are the
    integers; the replies the prompts ask for carry no other number). *)
#[warnings="-register-all"]
Inductive json :=
| JNull
| JBool (b : bool)
| JNum (n : Z)
| JStr (s : string)
| JArr (items : list json)
| JObj (fields : list (string * json)).

(** The answer of the registry service to one [datastore_search] request:
    [ApiError] stands for every exception the request block can raise
    (transport error, timeout, non-success HTTP status, a body that is not
    the JSON envelope); [ApiData] is the envelope, with its [success] flag
    and the list [result.records].  A record maps field names to text, as
    the [Optional[str]] fields of [GovData] require. *)
Inductive ApiResponse :=
| ApiError
| ApiData (success : bool) (records : list (gmap string string)).

(** The answer of the vision service to one chat request: [ReplyError]
    stands for every exception of the request block other than the parse
    errors handled inside it, a reply that carries no text among them (the
    text is [str(e)]); [ReplyContent] is the text
    [response.choices[0].message.content]. *)
Inductive Reply :=
| ReplyError (msg : string)
| ReplyContent (content : string).

(** What a run cannot decide by itself. *)
Record Env := {
  gov_api : string -> string -> ApiResponse;      (* resource_id, q *)
  ai_analyze : string -> GovData.t -> string -> Reply;  (* image, expected data, plate *)
  ai_pre_screen : string -> Reply;                (* image *)
  ai_yellow_plate : string -> Reply;              (* image *)
  json_loads : string -> option (gmap string json); (* [None]: JSONDecodeError *)
  int_of_str : string -> option Z;                (* [int(s)]; [None]: ValueError *)
  bool_of_str : string -> option bool;            (* a string read as a [bool] field *)
  now : Z                                         (* [datetime.now()] *)
}.

(** A request sent to a collaborator. *)
Inductive Request :=
| GovQuery (resource_id q : string)
| PreScreenCall (image : string)
| AnalyzeCall (image plate : string)
| YellowPlateCall (image : string).

(** A message handed to [manager.broadcast]. *)
Inductive WsMessage :=
| new_event (data : VehicleEvent.t)
| stats_update (data : StatsResponse).

Record State := {
  files : gset string;               (* the paths that exist *)
  events : list VehicleEvent.t;      (* the rows of table [events], oldest first *)
  last_rowid : Z;                    (* the AUTOINCREMENT counter *)
  files_processed : Z;               (* the watcher's counter *)
  broadcasts : list WsMessage;       (* oldest first *)
  requests : list Request            (* oldest first *)
}.

Definition with_files (f : gset string) (st : State) : State :=
  {| files := f; events := events st; last_rowid := last_rowid st;
     files_processed := files_processed st; broadcasts := broadcasts st;
     requests := requests st |}.

Definition with_events (ev : list VehicleEvent.t) (rowid : Z) (st : State) : State :=
  {| files := files st; events := ev; last_rowid := rowid;
     files_processed := files_processed st; broadcasts := broadcasts st;
     requests := requests st |}.

Definition with_files_processed (n : Z) (st : State) : State :=
  {| files := files st; events := events st; last_rowid := last_rowid st;
     files_processed := n; broadcasts := broadcasts st;
     requests := requests st |}.

Definition with_broadcasts (b : list WsMessage) (st : State) : State :=
  {| files := files st; events := events st; last_rowid := last_rowid st;
     files_processed := files_processed st; broadcasts := b;
     requests := requests st |}.

Definition with_requests (r : list Request) (st : State) : State :=
  {| files := files st; events := events st; last_rowid := last_rowid st;
     files_processed := files_processed st; broadcasts := broadcasts st;
     requests := r |}.

(** The state monad of the run. *)
Definition M (A : Type) : Type := State -> A * State.

#[export] Instance M_ret : MRet M := fun A a st => (a, st).
#[export] Instance M_bind : MBind M :=
  fun A B f m st => let '(a, st') := m st in f a st'.

Definition get_state : M State := fun st => (st, st).
Definition modify (f : State -> State) : M unit := fun st => (tt, f st).

Definition send (r : Request) : M unit :=
  modify (fun st => with_requests (requests st ++ [r]) st).

(** [path.exists()]. *)
Definition path_exists (p : string) : M bool :=
  fun st => (bool_decide (p ∈ files st), st).

(** [try: path.unlink() / except Exception: ...]: a missing file raises
    and the handler swallows it. *)
Definition try_unlink (p : string) : M unit :=
  modify (fun st => with_files (files st ∖ {[p]}) st).

(** [try: path.rename(dest) / except Exception: ...]. *)
Definition try_rename (p dest : string) : M unit :=
  modify (fun st =>
    if bool_decide (p ∈ files st)
    then with_files ((files st ∖ {[p]}) ∪ {[dest]}) st
    else st).

(** [manager.broadcast(message)]. *)
Definition broadcast (m : WsMessage) : M unit :=
  modify (fun st => with_broadcasts (broadcasts st ++ [m]) st).

(** [watcher.increment_processed()]. *)
Definition increment_processed : M unit :=
  modify (fun st => with_files_processed (files_processed st + 1) st).

(** ** gov_api.py: the registry resolver *)

(** [search_single_database]: one keyed request; every failure of the
    request is answered [(False, None)]. *)
Definition search_single_database (env : Env) (lpr resource_id : string)
  : M (bool * option (gmap string string)) :=
  _ ← send (GovQuery resource_id lpr);
  match gov_api env resource_id lpr with
  | ApiData true (record :: _) => mret (true, Some record)
  | _ => mret (false, None)
  end.

(** [record.get(key) or rest]. *)
Definition get_or (record : gmap string string) (key : string) (rest : string) : string :=
  match record !! key with
  | Some v => if Py.truthy_str v then v else rest
  | None => rest
  end.

Record VehicleData := {
  vd_manufacturer : string;
  vd_model : string;
  vd_color : string;
  vd_year : string
}.

Definition extract_vehicle_data (record : gmap string string) : VehicleData :=
  {| vd_manufacturer :=
       get_or record "tozeret_nm" (get_or record "tozeret_cd"
         (get_or record "tozeret" "לא ידוע"));
     vd_model :=
       get_or record "kinuy_mishari" (get_or record "degem_nm"
         (get_or record "degem_cd" "לא ידוע"));
     vd_color :=
       get_or record "tzeva_rechev" (get_or record "tzeva_cd" "לא ידוע");
     vd_year :=
       get_or record "shnat_yitzur" (get_or record "shnat_yitsur" "לא ידוע") |}.

(** The [GovData] built for a match in the registry [db_info]. *)
Definition found_record (db_info : Config.DbInfo) (record : gmap string string)
  : GovData.t :=
  let vehicle_data := extract_vehicle_data record in
  {| GovData.found := true;
     GovData.manufacturer := Some (vd_manufacturer vehicle_data);
     GovData.model := Some (vd_model vehicle_data);
     GovData.color := Some (vd_color vehicle_data);
     GovData.year := Some (vd_year vehicle_data);
     GovData.error := None;
     GovData.source_db := Some (Config.name db_info);
     GovData.alert_type := Config.alert_type db_info;
     GovData.alert_message := Config.alert_message db_info |}.

(** The [GovData] returned when the loop ends without a match. *)
Definition fake_plate_record : GovData.t :=
  {| GovData.found := false;
     GovData.manufacturer := None; GovData.model := None;
     GovData.color := None; GovData.year := None;
     GovData.error := None; GovData.source_db := None;
     GovData.alert_type := Some "FAKE_PLATE";
     GovData.alert_message := Some "לוחית מזויפת - לא נמצא באף מאגר ממשלתי" |}.

(** [bool(record)] of a dictionary. *)
Definition truthy_record (record : gmap string string) : bool :=
  negb (bool_decide (record = ∅)).

(** The loop of [search_all_databases] over a table of registries and a
    list of keys. *)
Fixpoint search_in (env : Env) (databases : gmap string Config.DbInfo)
    (order : list string) (lpr : string) : M GovData.t :=
  match order with
  | [] => mret fake_plate_record
  | db_key :: rest =>
      match databases !! db_key with
      | None => search_in env databases rest lpr
      | Some db_info =>
          r ← search_single_database env lpr (Config.resource_id db_info);
          match r with
          | (true, Some record) =>
              if truthy_record record
              then mret (found_record db_info record)
              else search_in env databases rest lpr
          | _ => search_in env databases rest lpr
          end
      end
  end.

Definition search_all_databases (env : Env) (lpr : string) : M GovData.t :=
  search_in env Config.GOV_DATABASES Config.GOV_SEARCH_ORDER lpr.

(** [get_vehicle_data]: the handlers of this function answer exceptions
    that escape [search_all_databases]; [search_single_database] handles
    every exception of a request itself, so none escapes here. *)
Definition get_vehicle_data (env : Env) (lpr : string) : M GovData.t :=
  search_all_databases env lpr.

Definition validate_lpr (lpr : string) : bool :=
  if negb (Py.truthy_str lpr) then false
  else if negb (Py.isdigit lpr) then false
  else if negb (bool_decide (Py.len lpr ∈ Config.LPR_VALID_LENGTHS)) then false
  else true.

(** ** ai_analyzer.py: the vision adapter *)

(** [bool(v)]. *)
Definition truthy (v : json) : bool :=
  match v with
  | JNull => false
  | JBool b => b
  | JNum n => negb (n =? 0)
  | JStr s => Py.truthy_str s
  | JArr items => match items with [] => false | _ => true end
  | JObj fields => match fields with [] => false | _ => true end
  end.

(** [result.get(key, default)]. *)
Definition dict_get (result : gmap string json) (key : string) (default : json) : json :=
  match result !! key with
  | Some v => v
  | None => default
  end.

(** The extraction shared by the three operations: the window from the
    first ["{"] to the last ["}"], decoded by [json.loads].  [None] when
    the window is empty ([ValueError]) or does not decode
    ([JSONDecodeError]). *)
Definition extract_json (env : Env) (content : string) : option (gmap string json) :=
  let json_start := Py.find "{" content in
  let json_end := Py.rfind "}" content + 1 in
  if (0 <=? json_start) && (json_start <? json_end)
  then json_loads env (Py.slice (Z.to_nat json_start) (Z.to_nat json_end) content)
  else None.

(** [int(v)] of a decoded value. *)
Inductive IntResult :=
| IntOk (n : Z)
| IntValueError
| IntTypeError (msg : string).

Definition type_name (v : json) : string :=
  match v with
  | JNull => "NoneType" | JBool _ => "bool" | JNum _ => "int"
  | JStr _ => "str" | JArr _ => "list" | JObj _ => "dict"
  end.

Definition py_int (env : Env) (v : json) : IntResult :=
  match v with
  | JNum n => IntOk n
  | JBool b => IntOk (Z.b2z b)
  | JStr s => match int_of_str env s with
              | Some n => IntOk n
              | None => IntValueError
              end
  | _ => IntTypeError
           ("int() argument must be a string, a bytes-like object or a real number, not '"
              +:+ type_name v +:+ "'")
  end.

(** [v >= k] for an integer [k]; [None] stands for [TypeError]. *)
Definition py_ge (v : json) (k : Z) : option bool :=
  match v with
  | JNum n => Some (k <=? n)
  | JBool b => Some (k <=? Z.b2z b)
  | _ => None
  end.

(** The field checks of the [AIAnalysis] model ([str], [Optional[str]],
    [bool]); [None] stands for the validation error, a [ValueError]. *)
Definition as_str (v : json) : option string :=
  match v with JStr s => Some s | _ => None end.

Definition as_opt_str (v : json) : option (option string) :=
  match v with
  | JNull => Some None
  | JStr s => Some (Some s)
  | _ => None
  end.

Definition as_bool (env : Env) (v : json) : option bool :=
  match v with
  | JBool b => Some b
  | JNum 0 => Some false
  | JNum 1 => Some true
  | JStr s => bool_of_str env s
  | _ => None
  end.

Definition new_analysis (env : Env)
    (scene manufacturer found : json) (conf : Z) (details reason : json)
  : option AIAnalysis.t :=
  s ← as_str scene;
  m ← as_opt_str manufacturer;
  f ← as_bool env found;
  d ← as_opt_str details;
  r ← as_opt_str reason;
  Some (AIAnalysis.mk s m f conf d r).

(** The verdict returned when the reply has no payload that decodes. *)
Definition parse_failure (content : string) : AIAnalysis.t :=
  {| AIAnalysis.scene_description := Py.take 200 content;
     AIAnalysis.detected_manufacturer := None;
     AIAnalysis.target_found := false;
     AIAnalysis.confidence := 0;
     AIAnalysis.best_match_details := None;
     AIAnalysis.reasoning := Some "שגיאה בפרסור התשובה" |}.

(** The verdict returned by the outer handler. *)
Definition call_failure (msg : string) : AIAnalysis.t :=
  {| AIAnalysis.scene_description := "שגיאה: " +:+ msg;
     AIAnalysis.detected_manufacturer := None;
     AIAnalysis.target_found := false;
     AIAnalysis.confidence := 0;
     AIAnalysis.best_match_details := None;
     AIAnalysis.reasoning := None |}.

Definition file_missing : AIAnalysis.t :=
  {| AIAnalysis.scene_description := "שגיאה: קובץ לא נמצא";
     AIAnalysis.detected_manufacturer := None;
     AIAnalysis.target_found := false;
     AIAnalysis.confidence := 0;
     AIAnalysis.best_match_details := None;
     AIAnalysis.reasoning := None |}.

(** What [analyze_vehicle_image] makes of the service's reply. *)
Definition analysis_of_reply (env : Env) (r : Reply) : AIAnalysis.t :=
  match r with
  | ReplyError msg => call_failure msg
  | ReplyContent content =>
      match extract_json env content with
      | None => parse_failure content
      | Some result =>
          match py_int env (dict_get result "confidence" (JNum 0)) with
          | IntTypeError msg => call_failure msg
          | IntValueError => parse_failure content
          | IntOk conf =>
              match new_analysis env
                      (dict_get result "scene_description" (JStr ""))
                      (dict_get result "detected_manufacturer" JNull)
                      (dict_get result "target_found" (JBool false))
                      conf
                      (dict_get result "best_match_details" JNull)
                      (dict_get result "reasoning" JNull) with
              | Some analysis => analysis
              | None => parse_failure content
              end
          end
      end
  end.

Definition analyze_vehicle_image (env : Env) (image_path : string)
    (gov_data : GovData.t) (lpr : string) : M AIAnalysis.t :=
  present ← path_exists image_path;
  if negb present then mret file_missing
  else
    _ ← send (AnalyzeCall image_path lpr);
    mret (analysis_of_reply env (ai_analyze env image_path gov_data lpr)).

(** The dictionary returned by [pre_screen_image]. *)
Record PreScreen := {
  skip : json;
  reason : json
}.

Definition pre_screen_of_reply (env : Env) (r : Reply) : PreScreen :=
  match r with
  | ReplyError _ => {| skip := JBool false; reason := JStr "error" |}
  | ReplyContent content =>
      match extract_json env content with
      | Some result =>
          {| skip := dict_get result "skip" (JBool false);
             reason := dict_get result "reason" (JStr "none") |}
      | None => {| skip := JBool false; reason := JStr "none" |}
      end
  end.

Definition pre_screen_image (env : Env) (image_path : string) : M PreScreen :=
  present ← path_exists image_path;
  if negb present then mret {| skip := JBool false; reason := JStr "" |}
  else
    _ ← send (PreScreenCall image_path);
    mret (pre_screen_of_reply env (ai_pre_screen env image_path)).

(** What [detect_yellow_plate] makes of the service's reply: the value of
    [found and confidence >= 50], or [False] from a handler. *)
Definition yellow_plate_of_reply (env : Env) (r : Reply) : json :=
  match r with
  | ReplyError _ => JBool false
  | ReplyContent content =>
      match extract_json env content with
      | None => JBool false
      | Some result =>
          let found := dict_get result "yellow_plate_found" (JBool false) in
          let confidence := dict_get result "confidence" (JNum 0) in
          if truthy found
          then match py_ge confidence 50 with
               | Some b => JBool b
               | None => JBool false
               end
          else found
      end
  end.

Definition detect_yellow_plate (env : Env) (image_path : string) : M json :=
  present ← path_exists image_path;
  if negb present then mret (JBool false)
  else
    _ ← send (YellowPlateCall image_path);
    mret (yellow_plate_of_reply env (ai_yellow_plate env image_path)).

(** ** database.py: the event store *)

(** [save_event]: one row is appended and its AUTOINCREMENT id returned;
    the insert is taken to succeed. *)
Definition save_event (event : VehicleEvent.t) : M Z :=
  fun st =>
    let event_id := last_rowid st + 1 in
    (event_id,
     with_events (events st ++ [VehicleEvent.set_id (Some event_id) event]) event_id st).

(** [ORDER BY timestamp DESC]. *)
Definition newer_first (a b : VehicleEvent.t) : Prop :=
  VehicleEvent.timestamp b ≤ VehicleEvent.timestamp a.

#[export] Instance newer_first_dec a b : Decision (newer_first a b).
Proof. unfold newer_first. apply _. Defined.

(** [LIMIT n] and [OFFSET n] of SQLite: a negative limit is no limit, a
    negative offset is no offset. *)
Definition sql_limit {A} (n : Z) (rows : list A) : list A :=
  if n <? 0 then rows else take (Z.to_nat n) rows.

Definition sql_offset {A} (n : Z) (rows : list A) : list A :=
  if n <? 0 then rows else drop (Z.to_nat n) rows.

(** [WHERE status = ?]. *)
Definition has_status (value : string) (e : VehicleEvent.t) : Prop :=
  status_value (VehicleEvent.status e) = value.

#[export] Instance has_status_dec value e : Decision (has_status value e).
Proof. unfold has_status. apply _. Defined.

Definition get_events (limit offset : Z) (status : option EventStatus)
  : M (list VehicleEvent.t) :=
  fun st =>
    let rows :=
      match status with
      | Some s => filter (has_status (status_value s)) (events st)
      | None => events st
      end in
    (sql_limit limit (sql_offset offset (merge_sort newer_first rows)), st).

Definition get_alerts (limit : Z) : M (list VehicleEvent.t) :=
  get_events limit 0 (Some ALERT).

Definition count_status (value : string) (rows : list VehicleEvent.t) : Z :=
  Z.of_nat (length (filter (has_status value) rows)).

Definition get_stats : M StatsResponse :=
  fun st =>
    ({| total_events := Z.of_nat (length (events st));
        verified_count := count_status "VERIFIED" (events st);
        alert_count := count_status "ALERT" (events st);
        unknown_count := count_status "UNKNOWN" (events st) |}, st).

Definition alert_statuses : list string :=
  ["ALERT"; "FAKE_PLATE"; "NO_LICENSE"; "OFF_ROAD"].

(** [WHERE status NOT IN (...)], negated: the rows that stay. *)
Definition is_alert_row (e : VehicleEvent.t) : Prop :=
  status_value (VehicleEvent.status e) ∈ alert_statuses.

#[export] Instance is_alert_row_dec e : Decision (is_alert_row e).
Proof. unfold is_alert_row. apply _. Defined.

Definition delete_non_alert_events : M Z :=
  fun st =>
    let kept := filter is_alert_row (events st) in
    (Z.of_nat (length (events st) - length kept),
     with_events kept (last_rowid st) st).

(** ** main.py: the orchestrator *)

(** How a run ends: it returns, or an exception leaves it. *)
Inductive Outcome :=
| Returned
| Raised (exception : string).

(** [bool(gov_data.alert_type)]. *)
Definition has_alert (gov_data : GovData.t) : bool :=
  match GovData.alert_type gov_data with
  | Some kind => Py.truthy_str kind
  | None => false
  end.

Definition alert_is (gov_data : GovData.t) (kind : string) : bool :=
  bool_decide (GovData.alert_type gov_data = Some kind).

(** The text of [f"{gov_data.alert_message}"]. *)
Definition alert_text (gov_data : GovData.t) : string :=
  default "None" (GovData.alert_message gov_data).

(** The analysis written on the registry-alert paths. *)
Definition synthetic (scene : string) (found : bool) (conf : Z) : AIAnalysis.t :=
  {| AIAnalysis.scene_description := scene;
     AIAnalysis.detected_manufacturer := None;
     AIAnalysis.target_found := found;
     AIAnalysis.confidence := conf;
     AIAnalysis.best_match_details := None;
     AIAnalysis.reasoning := None |}.

(** The decision of [process_new_file] (from "if gov_data.alert_type" to
    the line before [save_event]): [None] when the run returns without an
    event, otherwise the event that goes on to be saved. *)
Definition classify (env : Env) (file_path lpr : string)
    (event : VehicleEvent.t) (gov_data : GovData.t) : M (option VehicleEvent.t) :=
  if has_alert gov_data then
    if alert_is gov_data "FAKE_PLATE" then
      has_yellow_plate ← detect_yellow_plate env file_path;
      if negb (truthy has_yellow_plate) then
        _ ← try_unlink file_path;
        mret None
      else
        mret (Some (VehicleEvent.set_ai_analysis
                      (synthetic "🔴 לוחית מזויפת! הרכב לא קיים באף מאגר ממשלתי" false 0)
                      (VehicleEvent.set_status FAKE_PLATE event)))
    else if alert_is gov_data "NO_LICENSE" then
      mret (Some (VehicleEvent.set_ai_analysis
                    (synthetic ("⚠️ " +:+ alert_text gov_data) true 100)
                    (VehicleEvent.set_status NO_LICENSE event)))
    else if alert_is gov_data "OFF_ROAD" then
      mret (Some (VehicleEvent.set_ai_analysis
                    (synthetic ("⚠️ " +:+ alert_text gov_data) true 100)
                    (VehicleEvent.set_status OFF_ROAD event)))
    else mret (Some event)
  else if negb (GovData.found gov_data) then
    mret (Some (VehicleEvent.set_ai_analysis
                  (synthetic "שגיאה בשליפת נתונים" false 0)
                  (VehicleEvent.set_status UNKNOWN event)))
  else
    ai_result ← analyze_vehicle_image env file_path gov_data lpr;
    let event := VehicleEvent.set_ai_analysis ai_result event in
    if AIAnalysis.target_found ai_result
       && (Config.AI_CONFIDENCE_THRESHOLD <=? AIAnalysis.confidence ai_result)
    then mret (Some (VehicleEvent.set_status VERIFIED event))
    else mret (Some (VehicleEvent.set_status ALERT event)).

(** The tail of [process_new_file], from [save_event] on. *)
Definition persist (file_path filename : string) (event : VehicleEvent.t) : M unit :=
  event_id ← save_event event;
  let event := VehicleEvent.set_id (Some event_id) event in
  _ ← increment_processed;
  _ ← broadcast (new_event event);
  stats ← get_stats;
  _ ← broadcast (stats_update stats);
  try_rename file_path (Config.PROCESSED_FOLDER +:+ "/" +:+ filename).

(** The suffix test of [process_new_file]; [None] stands for the
    [ValueError] of [int]. *)
Definition suffix_excluded (lpr : string) : option bool :=
  if Py.len lpr =? 7 then
    let last_two_digits := Py.last_chars 2 lpr in
    match Py.int_of_digits last_two_digits with
    | Some n => Some ((90 <=? n) && (n <=? 99))
    | None => None
    end
  else Some false.

(** The event created before the registries are consulted:
    [VehicleEvent(timestamp=datetime.now(), ..., status=PROCESSING)]. *)
Definition initial_event (env : Env) (file_path filename : string) (meta : FileMeta)
  : VehicleEvent.t :=
  {| VehicleEvent.id := None;
     VehicleEvent.timestamp := now env;
     VehicleEvent.display_time := display_time meta;
     VehicleEvent.display_date := display_date meta;
     VehicleEvent.location_id := location_id meta;
     VehicleEvent.lpr := lpr meta;
     VehicleEvent.gov_data := GovData.default;
     VehicleEvent.ai_analysis := AIAnalysis.default;
     VehicleEvent.status := PROCESSING;
     VehicleEvent.image_filename := filename;
     VehicleEvent.image_path := Some file_path |}.

Definition process_new_file (env : Env) (file_path : string) : M Outcome :=
  let filename := Py.path_name file_path in
  match parse_filename filename with
  | Invalid _ => mret Returned
  | Valid meta =>
      let lpr := lpr meta in
      if negb (Py.isdigit lpr) then
        _ ← try_unlink file_path; mret Returned
      else if negb (validate_lpr lpr) then
        _ ← try_unlink file_path; mret Returned
      else
        match suffix_excluded lpr with
        | None => mret (Raised "ValueError")
        | Some true => _ ← try_unlink file_path; mret Returned
        | Some false =>
            pre_screen ← pre_screen_image env file_path;
            if truthy (skip pre_screen) then
              _ ← try_unlink file_path; mret Returned
            else
              let event := initial_event env file_path filename meta in
              gov_data ← get_vehicle_data env lpr;
              let event := VehicleEvent.set_gov_data gov_data event in
              decided ← classify env file_path lpr event gov_data;
              match decided with
              | None => mret Returned
              | Some event => _ ← persist file_path filename event; mret Returned
              end
        end
  end.

(** ** Notions the properties are stated with *)

(** The decoder as the design text words it: the filename itself is split
    on the underscore.  [parse_filename] splits [Path(filename).stem]; the
    two are compared below. *)
Definition decode_filename_as_worded (filename : string) : Parsed :=
  match Py.split "_" filename with
  | p0 :: p1 :: ts :: p3 :: _ =>
      if Py.len ts <? 14 then Invalid "פורמט זמן לא תקין"
      else
        Valid {| location_id := p0 +:+ "_" +:+ p1;
                 raw_date := substring 0 8 ts;
                 display_time :=
                   substring 8 2 ts +:+ ":" +:+ substring 10 2 ts +:+ ":" +:+ substring 12 2 ts;
                 display_date :=
                   substring 6 2 ts +:+ "/" +:+ substring 4 2 ts +:+ "/" +:+ substring 0 4 ts;
                 lpr := p3 |}
  | _ => Invalid "פורמט שם קובץ לא תקין"
  end.

(** A registry yields a positive match for a plate: it is configured, its
    reply is a successful envelope, and the first record is not empty. *)
Definition registry_match (env : Env) (databases : gmap string Config.DbInfo)
    (lpr db_key : string) : option (Config.DbInfo * gmap string string) :=
  db_info ← databases !! db_key;
  match gov_api env (Config.resource_id db_info) lpr with
  | ApiData true (record :: _) =>
      if truthy_record record then Some (db_info, record) else None
  | _ => None
  end.

(** The requests that consulting the registries [keys] sends, in order. *)
Definition queries (databases : gmap string Config.DbInfo) (lpr : string)
    (keys : list string) : list Request :=
  omap (fun db_key =>
          db_info ← databases !! db_key;
          Some (GovQuery (Config.resource_id db_info) lpr)) keys.

(** The alert kinds a [GovData] can carry under the configured table. *)
Definition configured_alert (kind : option string) : Prop :=
  kind ∈ [None; Some "NO_LICENSE"; Some "OFF_ROAD"; Some "FAKE_PLATE"].

#[export] Instance configured_alert_dec kind : Decision (configured_alert kind).
Proof. unfold configured_alert. apply _. Defined.

(** A verdict called high-confidence: at or above the threshold that
    [process_new_file] applies to a verdict. *)
Definition high_confidence (a : AIAnalysis.t) : Prop :=
  Config.AI_CONFIDENCE_THRESHOLD ≤ AIAnalysis.confidence a.

(** The statuses that [delete_non_alert_events] keeps. *)
Definition kept_statuses : list EventStatus :=
  [ALERT; FAKE_PLATE; NO_LICENSE; OFF_ROAD].

(** [n] calls of [delete_non_alert_events]. *)
Fixpoint clear_many (n : nat) (st : State) : State :=
  match n with
  | O => st
  | S n' => clear_many n' (delete_non_alert_events st).2
  end.

(** ** Concrete inputs *)

Module Fixture.

(** The double quote, and a JSON object text with its members. *)
Definition dq : string := String (ascii_of_nat 34) EmptyString.

Definition member (key value : string) : string :=
  dq +:+ key +:+ dq +:+ ": " +:+ value.

Definition object2 (k1 v1 k2 v2 : string) : string :=
  "{" +:+ member k1 v1 +:+ ", " +:+ member k2 v2 +:+ "}".

Definition yellow_text (found confidence : string) : string :=
  object2 "yellow_plate_found" found "confidence" confidence.

Definition verdict_text (found confidence : string) : string :=
  object2 "target_found" found "confidence" confidence.

Definition pre_screen_pass : string :=
  object2 "skip" "false" "reason" (dq +:+ "none" +:+ dq).

(** A decoder for the texts above. *)
Definition decoded : list (string * gmap string json) :=
  [ (yellow_text "true" "80",
      {[ "yellow_plate_found" := JBool true; "confidence" := JNum 80 ]});
    (yellow_text "false" "80",
      {[ "yellow_plate_found" := JBool false; "confidence" := JNum 80 ]});
    (verdict_text "true" "90",
      {[ "target_found" := JBool true; "confidence" := JNum 90 ]});
    (verdict_text "true" "75",
      {[ "target_found" := JBool true; "confidence" := JNum 75 ]});
    (verdict_text "true" "74",
      {[ "target_found" := JBool true; "confidence" := JNum 74 ]});
    (pre_screen_pass,
      {[ "skip" := JBool false; "reason" := JStr "none" ]}) ].

Definition loads (text : string) : option (gmap string json) :=
  snd <$> List.find (fun entry => String.eqb (fst entry) text) decoded.

Definition env (registry : string -> string -> ApiResponse)
    (analysis yellow : Reply) : Env :=
  {| gov_api := registry;
     ai_analyze := fun _ _ _ => analysis;
     ai_pre_screen := fun _ => ReplyContent pre_screen_pass;
     ai_yellow_plate := fun _ => yellow;
     json_loads := loads;
     int_of_str := fun _ => None;
     bool_of_str := fun _ => None;
     now := 1765455274 |}.

(** No registry knows any plate. *)
Definition no_registry (resource_id q : string) : ApiResponse := ApiData true [].

(** One registry knows one plate. *)
Definition one_registry (db_key plate : string) (record : gmap string string)
    (resource_id q : string) : ApiResponse :=
  match Config.GOV_DATABASES !! db_key with
  | Some db_info =>
      if String.eqb resource_id (Config.resource_id db_info) && String.eqb q plate
      then ApiData true [record]
      else ApiData true []
  | None => ApiData true []
  end.


(** A fresh store and a watched folder that holds one file. *)
Definition watching (file_path : string) : State :=
  {| files := {[ file_path ]}; events := []; last_rowid := 0;
     files_processed := 0; broadcasts := []; requests := [] |}.

Definition capture (plate : string) : string :=
  "/watch/9908_01_20251211121434974_" +:+ plate +:+ "_1_P1.jpg".

(** A stored row and a store holding given rows. *)
Definition row (rowid : Z) (s : EventStatus) : VehicleEvent.t :=
  {| VehicleEvent.id := Some rowid;
     VehicleEvent.timestamp := 1765455274 + rowid;
     VehicleEvent.display_time := "12:14:34";
     VehicleEvent.display_date := "11/12/2025";
     VehicleEvent.location_id := "9908_01";
     VehicleEvent.lpr := "1234567";
     VehicleEvent.gov_data := GovData.default;
     VehicleEvent.ai_analysis := AIAnalysis.default;
     VehicleEvent.status := s;
     VehicleEvent.image_filename := "";
     VehicleEvent.image_path := None |}.

Definition store (rows : list VehicleEvent.t) : State :=
  {| files := ∅; events := rows; last_rowid := Z.of_nat (length rows);
     files_processed := 0; broadcasts := []; requests := [] |}.

End Fixture.

(** The event a run saved last, for reading concrete runs. *)
Definition last_saved (st : State) : VehicleEvent.t :=
  List.last (events st) (Fixture.row 0 ERROR).

(** Unfolding the operations of the run. *)
Ltac run_monad :=
  unfold mbind, M_bind, mret, M_ret, try_unlink, try_rename, broadcast,
    increment_processed, send, modify, path_exists.

(** ** More of the sources *)

(** *** More Python text operations *)

Module PyText.

(** [c.lower()] on ASCII letters. *)
Definition lower_char (c : ascii) : ascii :=
  let n := nat_of_ascii c in
  if (65 <=? n)%nat && (n <=? 90)%nat then ascii_of_nat (n + 32) else c.

Fixpoint lower (s : string) : string :=
  match s with
  | EmptyString => EmptyString
  | String c s' => String (lower_char c) (lower s')
  end.

(** [Path(p).suffix]: the last dot of the name and what follows it, or the
    empty string when [stem] keeps the whole name. *)
Definition suffix (p : string) : string :=
  let name := Py.path_name p in
  let i := Py.rfind "." name in
  if (0 <? i) && (i <? Py.len name - 1) then Py.drop (Z.to_nat i) name else "".

(** [sep.join(parts)]. *)
Fixpoint join (sep : string) (parts : list string) : string :=
  match parts with
  | [] => EmptyString
  | [p] => p
  | p :: rest => p +:+ sep +:+ join sep rest
  end.

(** The character [c] does not occur in [s]. *)
Fixpoint lacks (c : ascii) (s : string) : bool :=
  match s with
  | EmptyString => true
  | String d s' => negb (Ascii.eqb d c) && lacks c s'
  end.

End PyText.

(** *** config.py: the accepted image extensions *)

Definition VALID_EXTENSIONS : list string := [".jpg"; ".jpeg"; ".png"].

(** *** ai_analyzer.py: [get_image_media_type] *)

Definition get_image_media_type (image_path : string) : string :=
  let suffix := PyText.lower (PyText.suffix image_path) in
  if String.eqb suffix ".jpg" then "image/jpeg"
  else if String.eqb suffix ".jpeg" then "image/jpeg"
  else if String.eqb suffix ".png" then "image/png"
  else "image/jpeg".

(** *** file_watcher.py: [NewFileHandler] *)

Module NewFileHandler.

(** A watchdog event, with the answer [file_path.stat()] gives when the
    event is handled: the creation time, or [None] for [OSError]. *)
Record FileCreatedEvent := {
  is_directory : bool;
  src_path : string;
  st_ctime : option Z
}.

Record t := {
  start_time : Z;
  processed_files : gset string
}.

(** [on_created]: the path handed to the callback, if any, and the handler
    afterwards. *)
Definition on_created (self : t) (event : FileCreatedEvent) : option string * t :=
  if is_directory event then (None, self)
  else
    let file_path := src_path event in
    if negb (bool_decide (PyText.lower (PyText.suffix file_path) ∈ VALID_EXTENSIONS))
    then (None, self)
    else if bool_decide (file_path ∈ processed_files self) then (None, self)
    else
      match st_ctime event with
      | None => (None, self)
      | Some file_ctime =>
          if file_ctime <? start_time self then (None, self)
          else (Some file_path,
                {| start_time := start_time self;
                   processed_files := processed_files self ∪ {[file_path]} |})
      end.

(** The handler over a sequence of events: the paths handed to the
    callback, in order, and the handler afterwards. *)
Fixpoint handle (self : t) (events : list FileCreatedEvent) : list string * t :=
  match events with
  | [] => ([], self)
  | event :: rest =>
      let '(dispatched, self') := on_created self event in
      let '(later, self'') := handle self' rest in
      (match dispatched with Some p => p :: later | None => later end, self'')
  end.

End NewFileHandler.

(** *** file_watcher.py: [DynamicWatcher] *)

Module DynamicWatcher.

(** [_observer] is [None] or an observer, of which the model keeps whether
    its thread is alive. *)
Record t := {
  _observer : option bool;
  _watched_folder : option string;
  _start_time : option Z;
  _files_processed : Z;
  _callback : bool;     (* a callback has been set *)
  _loop : bool          (* an event loop has been set *)
}.

(** [DynamicWatcher()]. *)
Definition init : t :=
  {| _observer := None; _watched_folder := None; _start_time := None;
     _files_processed := 0; _callback := false; _loop := false |}.

Definition is_active (self : t) : bool :=
  match _observer self with
  | Some alive => alive
  | None => false
  end.

Definition increment_processed (self : t) : t :=
  {| _observer := _observer self; _watched_folder := _watched_folder self;
     _start_time := _start_time self;
     _files_processed := _files_processed self + 1;
     _callback := _callback self; _loop := _loop self |}.

Definition set_callback (self : t) : t :=
  {| _observer := _observer self; _watched_folder := _watched_folder self;
     _start_time := _start_time self; _files_processed := _files_processed self;
     _callback := true; _loop := _loop self |}.

Definition set_loop (self : t) : t :=
  {| _observer := _observer self; _watched_folder := _watched_folder self;
     _start_time := _start_time self; _files_processed := _files_processed self;
     _callback := _callback self; _loop := true |}.

(** [stop]: the observer's [stop] and [join] are taken not to raise. *)
Definition stop (self : t) : (bool * string) * t :=
  match _observer self with
  | None => ((true, "הניטור כבר מופסק"), self)
  | Some _ =>
      ((true, "הניטור הופסק בהצלחה"),
       {| _observer := None; _watched_folder := None; _start_time := None;
          _files_processed := _files_processed self;
          _callback := _callback self; _loop := _loop self |})
  end.

(** What [start] finds at [folder_path]. *)
Inductive FolderKind := Missing | NotADirectory | Directory.

(** [start]: [kind] is what the path is, [now] is [datetime.now()], and
    [observer_error] is the text of the exception that scheduling or
    starting the new observer raises, if any; when they raise, the fields
    assigned before them keep their new values and the observer is not
    alive. *)
Definition start (kind : FolderKind) (observer_error : option string) (now : Z)
    (folder_path : string) (self : t) : (bool * string) * t :=
  let self := (stop self).2 in
  match kind with
  | Missing => ((false, "תיקייה לא קיימת: " +:+ folder_path), self)
  | NotADirectory => ((false, "הנתיב אינו תיקייה: " +:+ folder_path), self)
  | Directory =>
      if negb (_callback self) then ((false, "לא הוגדרה פונקציית callback"), self)
      else if negb (_loop self) then ((false, "לא הוגדרה לולאת אירועים"), self)
      else
        let started (alive : bool) :=
          {| _observer := Some alive; _watched_folder := Some folder_path;
             _start_time := Some now; _files_processed := 0;
             _callback := _callback self; _loop := _loop self |} in
        match observer_error with
        | None => ((true, "מנטר תיקייה: " +:+ folder_path), started true)
        | Some e => ((false, "שגיאה: " +:+ e), started false)
        end
  end.

End DynamicWatcher.

(** *** main.py: [ConnectionManager] *)

Module ConnectionManager.

(** The set [active_connections]; a connection is named by a number. *)
Definition connect (websocket : nat) (active_connections : gset nat) : gset nat :=
  active_connections ∪ {[websocket]}.

Definition disconnect (websocket : nat) (active_connections : gset nat) : gset nat :=
  active_connections ∖ {[websocket]}.

(** [broadcast]: [accepts c] tells whether [send_json] to [c] returns
    rather than raises.  The connections that raised are discarded. *)
Definition broadcast (accepts : nat -> bool) (active_connections : gset nat)
  : gset nat :=
  let disconnected := filter (fun c => accepts c = false) active_connections in
  active_connections ∖ disconnected.

End ConnectionManager.

(** *** database.py: lookup and deletion by id *)

Definition has_id (event_id : Z) (e : VehicleEvent.t) : Prop :=
  VehicleEvent.id e = Some event_id.

#[export] Instance has_id_dec event_id e : Decision (has_id event_id e).
Proof. unfold has_id. apply _. Defined.

(** [get_event_by_id]: [fetchone] of the rows with that id. *)
Definition get_event_by_id (event_id : Z) : M (option VehicleEvent.t) :=
  fun st => (head (filter (has_id event_id) (events st)), st).

(** [delete_event]: [True] when a row was deleted. *)
Definition delete_event (event_id : Z) : M bool :=
  fun st =>
    let kept := filter (fun e => ~ has_id event_id e) (events st) in
    (bool_decide (0 < length (events st) - length kept)%nat,
     with_events kept (last_rowid st) st).

(** *** main.py: the event endpoints *)

(** The answer of an endpoint: the value returned, or the status of the
    [HTTPException] raised. *)
Inductive Response (A : Type) :=
| Ok (value : A)
| HttpError (status_code : Z).
Arguments Ok {A} value.
Arguments HttpError {A} status_code.

(** [GET /api/events/{event_id}]. *)
Definition api_get_event (event_id : Z) : M (Response VehicleEvent.t) :=
  event ← get_event_by_id event_id;
  match event with
  | None => mret (HttpError 404)
  | Some e => mret (Ok e)
  end.

(** [DELETE /api/events/{event_id}]. *)
Definition api_delete_event (event_id : Z) : M (Response bool) :=
  deleted ← delete_event event_id;
  if negb deleted then mret (HttpError 404)
  else
    stats ← get_stats;
    _ ← broadcast (stats_update stats);
    mret (Ok true).

(** [GET /api/alerts]. *)
Definition api_get_alerts (limit : Z) : M (Z * list VehicleEvent.t) :=
  alerts ← get_alerts limit;
  mret (Z.of_nat (length alerts), alerts).

(** *** Notions for the further properties *)

(** The rows of the store carry distinct ids, all issued: positive and not
    above the AUTOINCREMENT counter. *)
Definition store_ok (st : State) : Prop :=
  0 <= last_rowid st
  /\ NoDup (VehicleEvent.id <$> events st)
  /\ Forall (fun e => exists i, VehicleEvent.id e = Some i /\ 0 < i <= last_rowid st)
            (events st).

(** A request to the vision service. *)
Definition is_vision_call (r : Request) : bool :=
  match r with
  | GovQuery _ _ => false
  | _ => true
  end.

(** A request for the costly operations: full analysis or yellow plate. *)
Definition is_verdict_call (r : Request) : bool :=
  match r with
  | AnalyzeCall _ _ | YellowPlateCall _ => true
  | _ => false
  end.

(** The alert kinds of the configured registries: none of them is the
    not-found kind. *)
Definition registry_alert (kind : option string) : Prop :=
  kind ∈ [None; Some "NO_LICENSE"; Some "OFF_ROAD"].

#[export] Instance registry_alert_dec kind : Decision (registry_alert kind).
Proof. unfold registry_alert. apply _. Defined.

(** The resource ids of the configured search order. *)
Definition search_resources : list string :=
  omap (fun db_key => Config.resource_id <$> Config.GOV_DATABASES !! db_key)
       Config.GOV_SEARCH_ORDER.

(** The store, the notification channel and the watcher's counter are the
    same in two states. *)
Definition store_untouched (st st' : State) : Prop :=
  events st' = events st /\ last_rowid st' = last_rowid st
  /\ broadcasts st' = broadcasts st /\ files_processed st' = files_processed st.


(** * Properties *)

(** ** The identifier decoder *)

Lemma take_take_14 (ts : string) :
  (14 <= String.length ts)%nat ->
  Py.take 8 ts = substring 0 8 ts
  /\ Py.drop 6 (Py.take 8 ts) = substring 6 2 ts
  /\ Py.slice 4 6 (Py.take 8 ts) = substring 4 2 ts
  /\ Py.take 4 (Py.take 8 ts) = substring 0 4 ts
  /\ Py.take 2 (Py.slice 8 14 ts) = substring 8 2 ts
  /\ Py.slice 2 4 (Py.slice 8 14 ts) = substring 10 2 ts
  /\ Py.drop 4 (Py.slice 8 14 ts) = substring 12 2 ts.
Proof.
  intros Hlen.
  do 14 (destruct ts as [|? ts]; [simpl in Hlen; lia|]).
  repeat split; reflexivity.
Qed.

Lemma len_lt_14 (ts : string) :
  (Py.len ts <? 14) = false <-> (14 <= String.length ts)%nat.
Proof. unfold Py.len. rewrite Z.ltb_ge. lia. Qed.

(** C7, as amended: the decoder splits the stem of the filename (the name
    without its last extension) on the underscore.  It fails exactly when
    the stem has fewer than 4 components or its third component is shorter
    than 14 characters; otherwise the location is the first two components
    joined by an underscore, the date is characters 6-8, 4-6 and 0-4 of the
    third component separated by slashes, the time is characters 8-10,
    10-12 and 12-14 separated by colons, and the plate is the fourth
    component verbatim. *)
Theorem parse_filename_decodes_stem (filename : string) :
  let parts := Py.split "_" (Py.stem filename) in
  (is_valid (parse_filename filename) = false <->
     (length parts < 4)%nat
     \/ exists ts, parts !! 2%nat = Some ts /\ (String.length ts < 14)%nat)
  /\ (forall p0 p1 ts p3,
        parts !! 0%nat = Some p0 -> parts !! 1%nat = Some p1 ->
        parts !! 2%nat = Some ts -> parts !! 3%nat = Some p3 ->
        (14 <= String.length ts)%nat ->
        parse_filename filename =
          Valid {| location_id := p0 +:+ "_" +:+ p1;
                   raw_date := substring 0 8 ts;
                   display_time :=
                     substring 8 2 ts +:+ ":" +:+ substring 10 2 ts
                       +:+ ":" +:+ substring 12 2 ts;
                   display_date :=
                     substring 6 2 ts +:+ "/" +:+ substring 4 2 ts
                       +:+ "/" +:+ substring 0 4 ts;
                   lpr := p3 |}).
Proof.
  intros parts. unfold parse_filename. fold parts.
  destruct parts as [|p0 [|p1 [|ts [|p3 rest]]]] eqn:Hparts;
    cbn -[Py.drop Py.take Py.slice Py.len].
  1-4: split; [split; [intros _; left; lia | reflexivity] | intros; discriminate].
  destruct (Py.len ts <? 14) eqn:Hts.
  - split.
    + split; [|reflexivity]. intros _. right. exists ts. split; [reflexivity|].
      apply Z.ltb_lt in Hts. unfold Py.len in Hts. lia.
    + intros ? ? ? ? _ _ [= <-] _ Hlen. apply len_lt_14 in Hlen. congruence.
  - split.
    + split; [discriminate|]. apply len_lt_14 in Hts.
      intros [Hlt | (ts' & [= <-] & Hlt)]; lia.
    + intros ? ? ? ? [= <-] [= <-] [= <-] [= <-] Hlen.
      destruct (take_take_14 ts Hlen) as (E1 & E2 & E3 & E4 & E5 & E6 & E7).
      rewrite E2, E3, E4, E5, E6, E7, E1. reflexivity.
Qed.

Lemma parse_filename_decodes_stem_witness :
  parse_filename "9908_01_20251211121434974_7072996_1_P1.jpg"
  = Valid {| location_id := "9908_01"; raw_date := "20251211";
             display_time := "12:14:34"; display_date := "11/12/2025";
             lpr := "7072996" |}.
Proof.
  apply (proj2 (parse_filename_decodes_stem
                  "9908_01_20251211121434974_7072996_1_P1.jpg")
           "9908" "01" "20251211121434974" "7072996");
    first [reflexivity | vm_compute; lia].
Defined.

(** C7, as worded, fails: for a four-component filename with an extension
    the fourth component of the filename is ["7072996.jpg"], while the
    decoder returns the plate ["7072996"]. *)
Lemma parse_filename_not_as_worded :
  let filename := "9908_01_20251211121434974_7072996.jpg" in
  Py.split "_" filename !! 3%nat = Some "7072996.jpg"
  /\ (exists meta, parse_filename filename = Valid meta /\ lpr meta = "7072996")
  /\ parse_filename filename <> decode_filename_as_worded filename.
Proof.
  split; [reflexivity|]. split; [eexists; split; reflexivity|].
  vm_compute. discriminate.
Qed.

(** ** The registry resolver *)

Lemma search_single_database_run env lpr resource_id st :
  search_single_database env lpr resource_id st =
    (match gov_api env resource_id lpr with
     | ApiData true (record :: _) => (true, Some record)
     | _ => (false, None)
     end,
     with_requests (requests st ++ [GovQuery resource_id lpr]) st).
Proof.
  unfold search_single_database, send, modify, mbind, M_bind, mret, M_ret.
  destruct (gov_api env resource_id lpr) as [|[] [|? ?]]; reflexivity.
Qed.

Lemma with_requests_nil st : with_requests (requests st ++ []) st = st.
Proof. destruct st. unfold with_requests. simpl. by rewrite app_nil_r. Qed.

Lemma with_requests_app st l1 l2 :
  with_requests (requests (with_requests (requests st ++ l1) st) ++ l2)
                (with_requests (requests st ++ l1) st)
  = with_requests (requests st ++ l1 ++ l2) st.
Proof. unfold with_requests. simpl. by rewrite app_assoc. Qed.

(** A registry without a match costs its request, if it is configured,
    and the loop goes on. *)
Lemma search_in_skip env databases db_key rest lpr st :
  registry_match env databases lpr db_key = None ->
  search_in env databases (db_key :: rest) lpr st =
  search_in env databases rest lpr
    (with_requests (requests st ++ queries databases lpr [db_key]) st).
Proof.
  unfold registry_match, queries. simpl.
  destruct (databases !! db_key) as [db_info|] eqn:Hdb; simpl.
  - intros Hno. unfold mbind at 1, M_bind at 1.
    rewrite search_single_database_run.
    destruct (gov_api env (Config.resource_id db_info) lpr) as [|[] [|record ?]];
      try reflexivity.
    destruct (truthy_record record); [discriminate | reflexivity].
  - intros _. by rewrite with_requests_nil.
Qed.

Lemma search_in_hit env databases db_key rest lpr st db_info record :
  registry_match env databases lpr db_key = Some (db_info, record) ->
  search_in env databases (db_key :: rest) lpr st =
  (found_record db_info record,
   with_requests (requests st ++ queries databases lpr [db_key]) st).
Proof.
  unfold registry_match, queries. simpl.
  destruct (databases !! db_key) as [info|] eqn:Hdb; simpl; [|discriminate].
  intros Hyes. unfold mbind at 1, M_bind at 1.
  rewrite search_single_database_run.
  destruct (gov_api env (Config.resource_id info) lpr) as [|[] [|r ?]];
    try discriminate.
  destruct (truthy_record r); [|discriminate].
  by injection Hyes as <- <-.
Qed.

Lemma queries_app databases lpr l1 l2 :
  queries databases lpr (l1 ++ l2) = queries databases lpr l1 ++ queries databases lpr l2.
Proof. unfold queries. apply omap_app. Qed.


Lemma search_in_no_match env databases lpr order st :
  Forall (fun k => registry_match env databases lpr k = None) order ->
  search_in env databases order lpr st =
  (fake_plate_record, with_requests (requests st ++ queries databases lpr order) st).
Proof.
  intros Hall. revert st.
  induction Hall as [|k order Hk _ IH]; intros st.
  - simpl. by rewrite with_requests_nil.
  - rewrite (search_in_skip _ _ _ _ _ _ Hk), IH, with_requests_app.
    by rewrite <- queries_app.
Qed.



(** ** The vision adapter *)

Lemma watching_present file_path : file_path ∈ files (Fixture.watching file_path).
Proof. simpl. by apply elem_of_singleton_2. Qed.

Lemma pre_screen_image_run env image_path st :
  pre_screen_image env image_path st =
  if bool_decide (image_path ∈ files st)
  then (pre_screen_of_reply env (ai_pre_screen env image_path),
        with_requests (requests st ++ [PreScreenCall image_path]) st)
  else ({| skip := JBool false; reason := JStr "" |}, st).
Proof.
  unfold pre_screen_image, path_exists, send, modify, mbind, M_bind, mret, M_ret.
  by destruct (bool_decide (image_path ∈ files st)).
Qed.

Lemma detect_yellow_plate_run env image_path st :
  detect_yellow_plate env image_path st =
  if bool_decide (image_path ∈ files st)
  then (yellow_plate_of_reply env (ai_yellow_plate env image_path),
        with_requests (requests st ++ [YellowPlateCall image_path]) st)
  else (JBool false, st).
Proof.
  unfold detect_yellow_plate, path_exists, send, modify, mbind, M_bind, mret, M_ret.
  by destruct (bool_decide (image_path ∈ files st)).
Qed.

Lemma analyze_vehicle_image_run env image_path gov_data lpr st :
  analyze_vehicle_image env image_path gov_data lpr st =
  if bool_decide (image_path ∈ files st)
  then (analysis_of_reply env (ai_analyze env image_path gov_data lpr),
        with_requests (requests st ++ [AnalyzeCall image_path lpr]) st)
  else (file_missing, st).
Proof.
  unfold analyze_vehicle_image, path_exists, send, modify, mbind, M_bind, mret, M_ret.
  by destruct (bool_decide (image_path ∈ files st)).
Qed.

Lemma yellow_plate_true env r :
  yellow_plate_of_reply env r = JBool true <->
  exists content result n,
    r = ReplyContent content
    /\ extract_json env content = Some result
    /\ truthy (dict_get result "yellow_plate_found" (JBool false)) = true
    /\ dict_get result "confidence" (JNum 0) = JNum n
    /\ 50 <= n.
Proof.
  unfold yellow_plate_of_reply. split.
  - destruct r as [msg|content]; [discriminate|].
    destruct (extract_json env content) as [result|] eqn:Hjson; [|discriminate].
    destruct (truthy (dict_get result "yellow_plate_found" (JBool false))) eqn:Hfound.
    + destruct (dict_get result "confidence" (JNum 0)) as [|b|n|s|l|o] eqn:Hconf;
        simpl; try discriminate.
      * destruct b; discriminate.
      * intros [= Hge%Z.leb_le]. by exists content, result, n.
    + intros Heq. rewrite Heq in Hfound. discriminate.
  - intros (content & result & n & -> & -> & -> & -> & Hge). simpl.
    by apply Z.leb_le in Hge as ->.
Qed.

Lemma yellow_plate_truthy env r :
  truthy (yellow_plate_of_reply env r) = true <-> yellow_plate_of_reply env r = JBool true.
Proof.
  split; [|by intros ->].
  unfold yellow_plate_of_reply.
  destruct r as [msg|content]; [discriminate|].
  destruct (extract_json env content) as [result|]; [|discriminate].
  destruct (truthy (dict_get result "yellow_plate_found" (JBool false))) eqn:Hfound.
  - destruct (py_ge _ 50) as [[]|]; simpl; done.
  - congruence.
Qed.

(** C8: when the image exists, so that the collaborator is asked,
    [detect_yellow_plate] returns [True] exactly when the reply carries a
    payload whose found flag is positive and whose confidence is a number of
    at least 50; a transport error and a reply without a payload that
    decodes both yield [False]; and nothing but [True] counts as a positive
    answer. *)
Theorem detect_yellow_plate_positive (env : Env) (image_path : string) (st : State) :
  image_path ∈ files st ->
  let answer := (detect_yellow_plate env image_path st).1 in
  (answer = JBool true <->
     exists content result n,
       ai_yellow_plate env image_path = ReplyContent content
       /\ extract_json env content = Some result
       /\ truthy (dict_get result "yellow_plate_found" (JBool false)) = true
       /\ dict_get result "confidence" (JNum 0) = JNum n
       /\ 50 <= n)
  /\ (truthy answer = true <-> answer = JBool true)
  /\ (forall msg, ai_yellow_plate env image_path = ReplyError msg -> answer = JBool false)
  /\ (forall content,
        ai_yellow_plate env image_path = ReplyContent content ->
        extract_json env content = None -> answer = JBool false).
Proof.
  intros Hpresent. rewrite detect_yellow_plate_run, bool_decide_eq_true_2 by done.
  simpl. split; [apply yellow_plate_true|]. split; [apply yellow_plate_truthy|].
  split.
  - by intros msg ->.
  - intros content -> Hnone. simpl. by rewrite Hnone.
Qed.

Lemma detect_yellow_plate_positive_witness :
  let env := Fixture.env Fixture.no_registry (ReplyError "")
               (ReplyContent ("Answer: " +:+ Fixture.yellow_text "true" "80" +:+ " (done)")) in
  (detect_yellow_plate env "/watch/a.jpg" (Fixture.watching "/watch/a.jpg")).1 = JBool true.
Proof.
  intros env.
  apply (proj2 (proj1 (detect_yellow_plate_positive env "/watch/a.jpg"
                         (Fixture.watching "/watch/a.jpg") (watching_present _)))).
  exists ("Answer: " +:+ Fixture.yellow_text "true" "80" +:+ " (done)"),
    {[ "yellow_plate_found" := JBool true; "confidence" := JNum 80 ]}, 80.
  split; [reflexivity|].
  split; [vm_compute; reflexivity|].
  split; [vm_compute; reflexivity|].
  split; [vm_compute; reflexivity | lia].
Defined.



(** ** The event store *)

Lemma is_alert_row_kept e :
  is_alert_row e <-> VehicleEvent.status e ∈ kept_statuses.
Proof.
  unfold is_alert_row.
  destruct (VehicleEvent.status e);
    match goal with |- ?P => apply (bool_decide_unpack P); vm_compute; exact I end.
Qed.

Lemma has_status_iff s e :
  has_status (status_value s) e <-> VehicleEvent.status e = s.
Proof.
  unfold has_status. split; [|by intros ->].
  destruct (VehicleEvent.status e), s; simpl; intros [=]; reflexivity.
Qed.

Lemma elem_of_sql_limit {A} (n : Z) (rows : list A) x :
  x ∈ sql_limit n rows -> x ∈ rows.
Proof.
  unfold sql_limit. destruct (n <? 0); [done|].
  intros (i & Hi & _)%elem_of_take. by eapply list_elem_of_lookup_2.
Qed.

Lemma elem_of_sql_offset {A} (n : Z) (rows : list A) x :
  x ∈ sql_offset n rows -> x ∈ rows.
Proof.
  unfold sql_offset. destruct (n <? 0); [done|].
  intros (i & Hi)%list_elem_of_lookup. rewrite lookup_drop in Hi.
  by eapply list_elem_of_lookup_2.
Qed.

Lemma get_events_status limit offset s st e :
  e ∈ (get_events limit offset (Some s) st).1 ->
  e ∈ events st /\ VehicleEvent.status e = s.
Proof.
  unfold get_events. simpl.
  intros He%elem_of_sql_limit%elem_of_sql_offset.
  rewrite merge_sort_Permutation in He.
  apply list_elem_of_filter in He as [Hs He]. split; [done|].
  by apply has_status_iff.
Qed.

Lemma delete_non_alert_events_rows st :
  events (delete_non_alert_events st).2
  = filter (fun e => VehicleEvent.status e ∈ kept_statuses) (events st).
Proof.
  unfold delete_non_alert_events. simpl.
  apply list_filter_iff, is_alert_row_kept.
Qed.

Lemma clear_many_keeps e n st :
  e ∈ events st -> VehicleEvent.status e ∈ kept_statuses ->
  e ∈ events (clear_many n st).
Proof.
  revert st. induction n as [|n IH]; intros st He Hs; [done|].
  cbn [clear_many]. apply IH; [|done].
  rewrite delete_non_alert_events_rows. by apply list_elem_of_filter.
Qed.

(** C10: [delete_non_alert_events] leaves exactly the rows whose status is
    one of ALERT, FAKE_PLATE, NO_LICENSE, OFF_ROAD (in their order) and
    reports how many rows it removed, while [get_alerts] returns only rows
    of the store whose status is ALERT.  So a row with status FAKE_PLATE,
    NO_LICENSE or OFF_ROAD is still in the store after any number of clear
    calls, and no alerts query, before or after them, returns it. *)
Theorem special_alerts_survive_unlisted (st : State) :
  events (delete_non_alert_events st).2
    = filter (fun e => VehicleEvent.status e ∈ kept_statuses) (events st)
  /\ (forall e, e ∈ events (delete_non_alert_events st).2 <->
                e ∈ events st /\ VehicleEvent.status e ∈ kept_statuses)
  /\ (delete_non_alert_events st).1
       = Z.of_nat (length (events st))
         - Z.of_nat (length (events (delete_non_alert_events st).2))
  /\ (forall limit e, e ∈ (get_alerts limit st).1 ->
                      e ∈ events st /\ VehicleEvent.status e = ALERT)
  /\ (forall e, e ∈ events st ->
                VehicleEvent.status e ∈ [FAKE_PLATE; NO_LICENSE; OFF_ROAD] ->
                forall n limit,
                  e ∈ events (clear_many n st)
                  /\ e ∉ (get_alerts limit (clear_many n st)).1).
Proof.
  split; [apply delete_non_alert_events_rows|].
  split.
  { intros e. rewrite delete_non_alert_events_rows, list_elem_of_filter. tauto. }
  split.
  { unfold delete_non_alert_events. simpl.
    pose proof (length_filter is_alert_row (events st)). lia. }
  split.
  { intros limit e. apply get_events_status. }
  intros e He Hs n limit. split.
  - apply clear_many_keeps; [done|].
    unfold kept_statuses. rewrite elem_of_cons. by right.
  - intros [_ Halert]%get_events_status.
    rewrite Halert in Hs.
    repeat (apply elem_of_cons in Hs as [Hs|Hs]; [discriminate|]).
    by apply elem_of_nil in Hs.
Qed.

Lemma special_alerts_survive_unlisted_witness :
  let st := Fixture.store [Fixture.row 1 VERIFIED; Fixture.row 2 FAKE_PLATE;
                           Fixture.row 3 ALERT; Fixture.row 4 UNKNOWN] in
  Fixture.row 2 FAKE_PLATE ∈ events (clear_many 2 st)
  /\ Fixture.row 2 FAKE_PLATE ∉ (get_alerts 20 (clear_many 2 st)).1.
Proof.
  intros st.
  apply (proj2 (proj2 (proj2 (proj2 (special_alerts_survive_unlisted st))))).
  - simpl. apply list_elem_of_lookup_2 with 1%nat. reflexivity.
  - simpl. apply list_elem_of_lookup_2 with 0%nat. reflexivity.
Defined.

(** ** The orchestrator *)

Lemma isdigit_last_chars (n : nat) (s : string) :
  Py.all_digits s = true -> Py.all_digits (Py.last_chars n s) = true.
Proof.
  unfold Py.last_chars. generalize (String.length s - n)%nat as k.
  intros k. revert s. induction k as [|k IH]; intros s Hs; [done|].
  destruct s as [|c s]; [done|]. simpl in *.
  apply andb_true_iff in Hs as [_ Hs]. by apply IH.
Qed.

Lemma length_drop_str (k : nat) (s : string) :
  String.length (Py.drop k s) = (String.length s - k)%nat.
Proof.
  revert s. induction k as [|k IH]; intros s; simpl; [lia|].
  destruct s as [|c s]; simpl; [done|]. apply IH.
Qed.

(** On an all-digit plate of length 7 the conversion of the last two
    characters succeeds: the suffix test never raises. *)
Lemma suffix_excluded_defined (lpr : string) :
  Py.isdigit lpr = true -> exists b, suffix_excluded lpr = Some b.
Proof.
  intros Hdigit. unfold suffix_excluded.
  destruct (Py.len lpr =? 7) eqn:Hlen; [|by eexists].
  apply Z.eqb_eq in Hlen. unfold Py.len in Hlen.
  assert (Hall : Py.all_digits lpr = true).
  { destruct lpr; [discriminate|exact Hdigit]. }
  unfold Py.int_of_digits.
  assert (Hlast : Py.isdigit (Py.last_chars 2 lpr) = true).
  { pose proof (isdigit_last_chars 2 lpr Hall) as H2.
    pose proof (length_drop_str (String.length lpr - 2) lpr) as Hl.
    unfold Py.last_chars in *.
    destruct (Py.drop (String.length lpr - 2) lpr); [simpl in Hl; lia|exact H2]. }
  rewrite Hlast. by eexists.
Qed.

Lemma process_new_file_unparsable env file_path st :
  is_valid (parse_filename (Py.path_name file_path)) = false ->
  process_new_file env file_path st = (Returned, st).
Proof.
  unfold process_new_file.
  by destruct (parse_filename (Py.path_name file_path)).
Qed.

Lemma process_new_file_letters env file_path st meta :
  parse_filename (Py.path_name file_path) = Valid meta ->
  Py.isdigit (lpr meta) = false ->
  process_new_file env file_path st
  = (Returned, with_files (files st ∖ {[file_path]}) st).
Proof. unfold process_new_file. by intros -> ->. Qed.

Lemma process_new_file_bad_length env file_path st meta :
  parse_filename (Py.path_name file_path) = Valid meta ->
  Py.isdigit (lpr meta) = true ->
  validate_lpr (lpr meta) = false ->
  process_new_file env file_path st
  = (Returned, with_files (files st ∖ {[file_path]}) st).
Proof. unfold process_new_file. by intros -> -> ->. Qed.

Lemma process_new_file_suffix env file_path st meta :
  parse_filename (Py.path_name file_path) = Valid meta ->
  Py.isdigit (lpr meta) = true ->
  validate_lpr (lpr meta) = true ->
  suffix_excluded (lpr meta) = Some true ->
  process_new_file env file_path st
  = (Returned, with_files (files st ∖ {[file_path]}) st).
Proof. unfold process_new_file. by intros -> -> -> ->. Qed.

(** A run that passes the local filters: pre-screen, registries, decision,
    and the tail. *)
Lemma process_new_file_admitted env file_path st meta :
  parse_filename (Py.path_name file_path) = Valid meta ->
  Py.isdigit (lpr meta) = true ->
  validate_lpr (lpr meta) = true ->
  suffix_excluded (lpr meta) = Some false ->
  process_new_file env file_path st =
  (let '(pre_screen, st1) := pre_screen_image env file_path st in
   if truthy (skip pre_screen)
   then (Returned, with_files (files st1 ∖ {[file_path]}) st1)
   else
     let '(gov_data, st2) := get_vehicle_data env (lpr meta) st1 in
     let '(decided, st3) :=
       classify env file_path (lpr meta)
         (VehicleEvent.set_gov_data gov_data
            (initial_event env file_path (Py.path_name file_path) meta))
         gov_data st2 in
     match decided with
     | None => (Returned, st3)
     | Some event =>
         (Returned, (persist file_path (Py.path_name file_path) event st3).2)
     end).
Proof.
  unfold process_new_file. intros -> -> -> ->. cbn [negb].
  unfold mbind at 1, M_bind at 1.
  destruct (pre_screen_image env file_path st) as [pre_screen st1].
  destruct (truthy (skip pre_screen)); [reflexivity|].
  unfold mbind at 1, M_bind at 1.
  destruct (get_vehicle_data env (lpr meta) st1) as [gov_data st2].
  unfold mbind at 1, M_bind at 1.
  destruct (classify _ _ _ _ _ st2) as [[event|] st3]; [|reflexivity].
  unfold mbind at 1, M_bind at 1.
  by destruct (persist _ _ event st3) as [[] st4].
Qed.

Lemma validate_lpr_iff (lpr : string) :
  validate_lpr lpr = true <->
  Py.isdigit lpr = true /\ (String.length lpr = 7%nat \/ String.length lpr = 8%nat).
Proof.
  unfold validate_lpr, Config.LPR_VALID_LENGTHS, Py.len.
  destruct lpr as [|c s]; [simpl; split; [discriminate | intros [[=] _]]|].
  cbn [Py.truthy_str negb].
  destruct (Py.isdigit (String c s)); cbn [negb]; [|split; [discriminate | intros [[=] _]]].
  destruct (bool_decide _) eqn:Hlen; cbn [negb].
  - apply bool_decide_eq_true in Hlen.
    rewrite !elem_of_cons, elem_of_nil in Hlen. split; [|done].
    intros _. split; [done|]. lia.
  - apply bool_decide_eq_false in Hlen.
    rewrite !elem_of_cons, elem_of_nil in Hlen.
    split; [discriminate|]. intros [_ Hl]. exfalso. apply Hlen. lia.
Qed.

(** C6: when the decoded plate is all digits, has length 7 and its last two
    digits read as a number between 90 and 99, the run returns after
    deleting the source file and nothing else: no event is saved, nothing
    is broadcast, and no request is sent to the registries or to the vision
    service, whatever the registries hold. *)
Theorem suffix_90_99_discarded (env : Env) (file_path : string) (st : State)
    (meta : FileMeta) (n : Z) :
  parse_filename (Py.path_name file_path) = Valid meta ->
  Py.isdigit (lpr meta) = true ->
  String.length (lpr meta) = 7%nat ->
  Py.int_of_digits (Py.last_chars 2 (lpr meta)) = Some n ->
  90 <= n <= 99 ->
  process_new_file env file_path st
    = (Returned, with_files (files st ∖ {[file_path]}) st)
  /\ let st' := (process_new_file env file_path st).2 in
     (file_path ∉ files st')
     /\ events st' = events st
     /\ broadcasts st' = broadcasts st
     /\ requests st' = requests st.
Proof.
  intros Hparse Hdigit Hlen Hint Hrange.
  assert (Hrun : process_new_file env file_path st
                 = (Returned, with_files (files st ∖ {[file_path]}) st)).
  { apply (process_new_file_suffix env file_path st meta); try done.
    - apply validate_lpr_iff. split; [done | by left].
    - unfold suffix_excluded, Py.len. rewrite Hlen, Hint. simpl.
      destruct Hrange as [->%Z.leb_le ->%Z.leb_le]. done. }
  rewrite Hrun. split; [done|]. simpl. repeat split.
  rewrite elem_of_difference, elem_of_singleton. tauto.
Qed.

Lemma suffix_90_99_discarded_witness :
  let file_path := Fixture.capture "7072996" in
  let env := Fixture.env (Fixture.one_registry "main" "7072996" {[ "tozeret_nm" := "Toyota" ]})
               (ReplyContent (Fixture.verdict_text "true" "90")) (ReplyError "") in
  let st' := (process_new_file env file_path (Fixture.watching file_path)).2 in
  (file_path ∉ files st') /\ events st' = [] /\ broadcasts st' = [] /\ requests st' = [].
Proof.
  intros file_path env.
  apply (proj2 (suffix_90_99_discarded env file_path (Fixture.watching file_path)
                  {| location_id := "9908_01"; raw_date := "20251211";
                     display_time := "12:14:34"; display_date := "11/12/2025";
                     lpr := "7072996" |} 96
                  eq_refl eq_refl eq_refl eq_refl ltac:(lia))).
Defined.

(** C2, the unparsable-filename case, as the code runs it: the run returns
    with the disk, the store and the notification channel exactly as they
    were, so a source file that was present is still present.  (The two
    plate cases delete the file: [malformed_plate_discarded].) *)
Theorem unparsable_filename_left_on_disk (env : Env) (file_path : string) (st : State) :
  is_valid (parse_filename (Py.path_name file_path)) = false ->
  process_new_file env file_path st = (Returned, st)
  /\ (file_path ∈ files st -> file_path ∈ files (process_new_file env file_path st).2).
Proof.
  intros Hbad. rewrite (process_new_file_unparsable env file_path st Hbad). done.
Qed.

Lemma unparsable_filename_left_on_disk_witness :
  let file_path := "/watch/snapshot.jpg" in
  let env := Fixture.env Fixture.no_registry (ReplyError "") (ReplyError "") in
  file_path ∈ files (process_new_file env file_path (Fixture.watching file_path)).2.
Proof.
  intros file_path env.
  apply (proj2 (unparsable_filename_left_on_disk env file_path
                  (Fixture.watching file_path) eq_refl)).
  apply watching_present.
Defined.

(** The plate cases of C2: a decoded plate with a character that is not a
    digit, or an all-digit plate whose length is neither 7 nor 8, ends the
    run with the source file deleted and nothing else changed. *)
Lemma malformed_plate_discarded env file_path st meta :
  parse_filename (Py.path_name file_path) = Valid meta ->
  Py.isdigit (lpr meta) = false
  \/ (String.length (lpr meta) <> 7%nat /\ String.length (lpr meta) <> 8%nat) ->
  process_new_file env file_path st
  = (Returned, with_files (files st ∖ {[file_path]}) st).
Proof.
  intros Hparse Hbad.
  destruct (Py.isdigit (lpr meta)) eqn:Hdigit.
  - apply (process_new_file_bad_length env file_path st meta); try done.
    destruct (validate_lpr (lpr meta)) eqn:Hv; [|done].
    apply validate_lpr_iff in Hv as [_ Hl].
    destruct Hbad as [[=]|[H7 H8]]. lia.
  - by apply (process_new_file_letters env file_path st meta).
Qed.

(** *** The decision *)

(** The decision changes neither the store nor the notification channel. *)
Lemma classify_frame env file_path lpr event gov_data st :
  let st' := (classify env file_path lpr event gov_data st).2 in
  events st' = events st /\ last_rowid st' = last_rowid st
  /\ broadcasts st' = broadcasts st.
Proof.
  unfold classify.
  destruct (has_alert gov_data).
  - destruct (alert_is gov_data "FAKE_PLATE").
    + unfold mbind, M_bind, mret, M_ret. rewrite detect_yellow_plate_run.
      destruct (bool_decide (file_path ∈ files st)); [|done].
      by destruct (truthy _).
    + by repeat destruct (alert_is _ _).
  - destruct (GovData.found gov_data); [|done]. cbn [negb].
    unfold mbind, M_bind, mret, M_ret. rewrite analyze_vehicle_image_run.
    destruct (bool_decide (file_path ∈ files st)); by destruct (_ && _).
Qed.

(** Every event the decision hands on carries the registry record it was
    given. *)
Lemma classify_gov_data env file_path lpr event gov_data st decided :
  (classify env file_path lpr event gov_data st).1 = Some decided ->
  VehicleEvent.gov_data decided = VehicleEvent.gov_data event.
Proof.
  unfold classify.
  destruct (has_alert gov_data).
  - destruct (alert_is gov_data "FAKE_PLATE").
    + unfold mbind, M_bind, mret, M_ret. rewrite detect_yellow_plate_run.
      destruct (bool_decide (file_path ∈ files st)); [|discriminate].
      destruct (truthy _); [|discriminate]. by intros [= <-].
    + repeat destruct (alert_is _ _); by intros [= <-].
  - destruct (GovData.found gov_data); [|by intros [= <-]]. cbn [negb].
    unfold mbind, M_bind, mret, M_ret. rewrite analyze_vehicle_image_run.
    destruct (bool_decide (file_path ∈ files st)); destruct (_ && _);
      by intros [= <-].
Qed.

(** For a record of a configured alert kind, or of none, the decision
    hands on a classified event. *)
Lemma classify_terminal env file_path lpr event gov_data st decided :
  configured_alert (GovData.alert_type gov_data) ->
  (classify env file_path lpr event gov_data st).1 = Some decided ->
  VehicleEvent.status decided <> PROCESSING.
Proof.
  unfold configured_alert, classify, has_alert, alert_is.
  rewrite !elem_of_cons, elem_of_nil.
  intros [-> | [-> | [-> | [-> | []]]]]; cbn [Py.truthy_str].
  - destruct (GovData.found gov_data); cbn [negb]; [|by intros [= <-]].
    unfold mbind, M_bind, mret, M_ret. rewrite analyze_vehicle_image_run.
    destruct (bool_decide (file_path ∈ files st)); destruct (_ && _);
      by intros [= <-].
  - rewrite bool_decide_eq_false_2 by discriminate.
    rewrite bool_decide_eq_true_2 by reflexivity. by intros [= <-].
  - rewrite !bool_decide_eq_false_2 by discriminate.
    rewrite bool_decide_eq_true_2 by reflexivity. by intros [= <-].
  - rewrite bool_decide_eq_true_2 by reflexivity.
    unfold mbind, M_bind, mret, M_ret. rewrite detect_yellow_plate_run.
    destruct (bool_decide (file_path ∈ files st)); [|discriminate].
    destruct (truthy _); [|discriminate]. by intros [= <-].
Qed.

(** The full-verification branch. *)
Lemma classify_full_verification env file_path lpr event gov_data st :
  has_alert gov_data = false ->
  GovData.found gov_data = true ->
  (classify env file_path lpr event gov_data st).1 =
  let ai_result := (analyze_vehicle_image env file_path gov_data lpr st).1 in
  Some (VehicleEvent.set_status
          (if AIAnalysis.target_found ai_result
              && (Config.AI_CONFIDENCE_THRESHOLD <=? AIAnalysis.confidence ai_result)
           then VERIFIED else ALERT)
          (VehicleEvent.set_ai_analysis ai_result event)).
Proof.
  intros Hno Hfound. unfold classify. rewrite Hno, Hfound. cbn [negb].
  unfold mbind, M_bind, mret, M_ret.
  destruct (analyze_vehicle_image env file_path gov_data lpr st) as [ai st'].
  cbn [fst]. by destruct (_ && _).
Qed.

(** *** The registries, seen from the run *)

Lemma search_in_requests env databases order lpr st :
  exists sent,
    (search_in env databases order lpr st).2
    = with_requests (requests st ++ sent) st.
Proof.
  revert st. induction order as [|db_key rest IH]; intros st.
  - exists []. simpl. by rewrite with_requests_nil.
  - destruct (registry_match env databases lpr db_key) as [[db_info record]|] eqn:Hm.
    + rewrite (search_in_hit _ _ _ _ _ _ _ _ Hm). by eexists.
    + rewrite (search_in_skip _ _ _ _ _ _ Hm).
      destruct (IH (with_requests
                      (requests st ++ queries databases lpr [db_key]) st)) as [sent ->].
      rewrite with_requests_app. by eexists.
Qed.

Lemma registry_match_configured env databases lpr db_key db_info record :
  registry_match env databases lpr db_key = Some (db_info, record) ->
  databases !! db_key = Some db_info.
Proof.
  unfold registry_match.
  destruct (databases !! db_key) as [info|]; simpl; [|discriminate].
  destruct (gov_api env _ lpr) as [|[] [|r ?]]; try discriminate.
  destruct (truthy_record r); [|discriminate]. by intros [= <- _].
Qed.

Lemma search_in_alert_type env databases order lpr st :
  map_Forall (fun _ db_info => configured_alert (Config.alert_type db_info)) databases ->
  configured_alert (GovData.alert_type (search_in env databases order lpr st).1).
Proof.
  intros Htable. revert st. induction order as [|db_key rest IH]; intros st.
  - simpl. unfold configured_alert. rewrite !elem_of_cons. tauto.
  - destruct (registry_match env databases lpr db_key) as [[db_info record]|] eqn:Hm.
    + rewrite (search_in_hit _ _ _ _ _ _ _ _ Hm). simpl.
      eapply Htable, registry_match_configured, Hm.
    + rewrite (search_in_skip _ _ _ _ _ _ Hm). apply IH.
Qed.

Lemma GOV_DATABASES_alerts :
  map_Forall (fun _ db_info => configured_alert (Config.alert_type db_info))
             Config.GOV_DATABASES.
Proof.
  match goal with |- ?P => apply (bool_decide_unpack P) end.
  vm_compute. exact I.
Qed.

Lemma get_vehicle_data_alert_type env lpr st :
  configured_alert (GovData.alert_type (get_vehicle_data env lpr st).1).
Proof. apply search_in_alert_type, GOV_DATABASES_alerts. Qed.

Lemma get_vehicle_data_frame env lpr st :
  let st' := (get_vehicle_data env lpr st).2 in
  files st' = files st /\ events st' = events st
  /\ last_rowid st' = last_rowid st /\ broadcasts st' = broadcasts st.
Proof.
  unfold get_vehicle_data, search_all_databases.
  destruct (search_in_requests env Config.GOV_DATABASES Config.GOV_SEARCH_ORDER lpr st)
    as [sent ->]. done.
Qed.

Lemma pre_screen_image_frame env image_path st :
  let st' := (pre_screen_image env image_path st).2 in
  files st' = files st /\ events st' = events st
  /\ last_rowid st' = last_rowid st /\ broadcasts st' = broadcasts st.
Proof.
  rewrite pre_screen_image_run. by destruct (bool_decide _).
Qed.

(** *** The tail and the whole run *)

Lemma persist_run file_path filename event st :
  let saved := VehicleEvent.set_id (Some (last_rowid st + 1)) event in
  let st' := (persist file_path filename event st).2 in
  events st' = events st ++ [saved]
  /\ last_rowid st' = last_rowid st + 1
  /\ files_processed st' = files_processed st + 1
  /\ requests st' = requests st
  /\ (exists stats, broadcasts st' = broadcasts st ++ [new_event saved; stats_update stats])
  /\ files st' =
       if bool_decide (file_path ∈ files st)
       then (files st ∖ {[file_path]}) ∪ {[Config.PROCESSED_FOLDER +:+ "/" +:+ filename]}
       else files st.
Proof.
  unfold persist, save_event, get_stats. run_monad. cbn.
  destruct (bool_decide (file_path ∈ files st)); cbn;
    repeat split; try done; rewrite <- app_assoc; by eexists.
Qed.

(** What a run adds to the store: nothing, or the one event that the
    decision handed on, for the record returned by the resolver. *)
Lemma process_new_file_saved env file_path st :
  let st' := (process_new_file env file_path st).2 in
  events st' = events st
  \/ exists meta gov_data st2 decided,
       parse_filename (Py.path_name file_path) = Valid meta
       /\ files st2 = files st
       /\ configured_alert (GovData.alert_type gov_data)
       /\ (classify env file_path (lpr meta)
             (VehicleEvent.set_gov_data gov_data
                (initial_event env file_path (Py.path_name file_path) meta))
             gov_data st2).1 = Some decided
       /\ events st' = events st ++ [VehicleEvent.set_id (Some (last_rowid st + 1)) decided].
Proof.
  destruct (parse_filename (Py.path_name file_path)) as [err|meta] eqn:Hparse.
  { left. by rewrite process_new_file_unparsable by (by rewrite Hparse). }
  destruct (Py.isdigit (lpr meta)) eqn:Hdigit.
  2:{ left. by rewrite (process_new_file_letters env file_path st meta). }
  destruct (validate_lpr (lpr meta)) eqn:Hvalid.
  2:{ left. by rewrite (process_new_file_bad_length env file_path st meta). }
  destruct (suffix_excluded (lpr meta)) as [[]|] eqn:Hsuffix.
  { left. by rewrite (process_new_file_suffix env file_path st meta). }
  2:{ destruct (suffix_excluded_defined _ Hdigit) as [b Hb]. congruence. }
  rewrite (process_new_file_admitted env file_path st meta) by done.
  pose proof (pre_screen_image_frame env file_path st) as Hpre.
  destruct (pre_screen_image env file_path st) as [pre_screen st1].
  cbn [snd] in Hpre. destruct Hpre as (Hf1 & He1 & Hr1 & Hb1).
  destruct (truthy (skip pre_screen)); [by left|].
  pose proof (get_vehicle_data_frame env (lpr meta) st1) as Hgov.
  pose proof (get_vehicle_data_alert_type env (lpr meta) st1) as Hkind.
  destruct (get_vehicle_data env (lpr meta) st1) as [gov_data st2].
  cbn [fst snd] in Hgov, Hkind. destruct Hgov as (Hf2 & He2 & Hr2 & Hb2).
  pose proof (classify_frame env file_path (lpr meta)
                (VehicleEvent.set_gov_data gov_data
                   (initial_event env file_path (Py.path_name file_path) meta))
                gov_data st2) as Hcl.
  destruct (classify env file_path (lpr meta) _ gov_data st2)
    as [[decided|] st3] eqn:Hdecide;
    cbn [snd] in Hcl; destruct Hcl as (He3 & Hr3 & Hb3).
  - right. exists meta, gov_data, st2, decided.
    split; [done|]. split; [congruence|]. split; [done|].
    split; [by rewrite Hdecide|]. cbn [snd].
    destruct (persist_run file_path (Py.path_name file_path) decided st3) as (-> & _).
    congruence.
  - left. cbn [snd]. congruence.
Qed.

(** C4: every event passed to [save_event] has been classified.  First,
    at the decision: for a record whose alert kind is NO_LICENSE, OFF_ROAD,
    FAKE_PLATE or none (found or not), whatever the decision hands on to be
    saved has a status other than PROCESSING.  Second, for the whole run
    under the configured registries: the store after a run is the store
    before it followed by at most one new row, and no new row has status
    PROCESSING. *)
Theorem saved_events_are_classified (env : Env) (file_path : string) (st : State) :
  (forall lpr event gov_data decided,
      configured_alert (GovData.alert_type gov_data) ->
      (classify env file_path lpr event gov_data st).1 = Some decided ->
      VehicleEvent.status decided <> PROCESSING)
  /\ exists saved,
       events (process_new_file env file_path st).2 = events st ++ saved
       /\ (length saved <= 1)%nat
       /\ Forall (fun e => VehicleEvent.status e <> PROCESSING) saved.
Proof.
  split.
  { intros lpr event gov_data decided. apply classify_terminal. }
  destruct (process_new_file_saved env file_path st)
    as [Hsame | (meta & gov_data & st2 & decided & _ & _ & Hkind & Hdecide & Hsaved)].
  - exists []. rewrite Hsame, app_nil_r. repeat split; [simpl; lia | constructor].
  - eexists. split; [exact Hsaved|]. split; [simpl; lia|].
    constructor; [|constructor].
    change (VehicleEvent.status decided <> PROCESSING).
    eapply classify_terminal; [exact Hkind | exact Hdecide].
Qed.

Lemma saved_events_are_classified_witness :
  let env := Fixture.env Fixture.no_registry (ReplyError "") (ReplyError "") in
  let file_path := Fixture.capture "1234567" in
  let event :=
    initial_event env file_path (Py.path_name file_path)
      {| location_id := "9908_01"; raw_date := "20251211";
         display_time := "12:14:34"; display_date := "11/12/2025";
         lpr := "1234567" |} in
  let unreachable :=
    {| GovData.found := false;
       GovData.manufacturer := None; GovData.model := None;
       GovData.color := None; GovData.year := None;
       GovData.error := Some "Timeout"; GovData.source_db := None;
       GovData.alert_type := None; GovData.alert_message := None |} in
  VehicleEvent.status
    (VehicleEvent.set_ai_analysis (synthetic "שגיאה בשליפת נתונים" false 0)
       (VehicleEvent.set_status UNKNOWN event)) <> PROCESSING.
Proof.
  intros env file_path event unreachable.
  apply (proj1 (saved_events_are_classified env file_path (Fixture.watching file_path))
           "1234567" event unreachable).
  - unfold configured_alert. simpl. apply list_elem_of_lookup_2 with 0%nat. reflexivity.
  - reflexivity.
Defined.

Lemma analyze_vehicle_image_files env image_path gov_data lpr st st' :
  files st' = files st ->
  (analyze_vehicle_image env image_path gov_data lpr st').1
  = (analyze_vehicle_image env image_path gov_data lpr st).1.
Proof.
  intros Hfiles. rewrite !analyze_vehicle_image_run, Hfiles.
  by destruct (bool_decide _).
Qed.

(** C5: when a run saves an event whose registry record is found and
    carries no alert, which is the case in which the full verification is
    asked for, the saved verdict is the one [analyze_vehicle_image] returned
    for that record and plate, and the saved status is VERIFIED exactly when
    that verdict has the target found and a confidence of at least 75, and
    ALERT exactly when it has not. *)
Theorem full_verification_threshold (env : Env) (file_path : string) (st : State)
    (saved : VehicleEvent.t) :
  events (process_new_file env file_path st).2 = events st ++ [saved] ->
  GovData.found (VehicleEvent.gov_data saved) = true ->
  has_alert (VehicleEvent.gov_data saved) = false ->
  let verdict := VehicleEvent.ai_analysis saved in
  verdict = (analyze_vehicle_image env file_path (VehicleEvent.gov_data saved)
               (VehicleEvent.lpr saved) st).1
  /\ (VehicleEvent.status saved = VERIFIED <->
        AIAnalysis.target_found verdict = true /\ 75 <= AIAnalysis.confidence verdict)
  /\ (VehicleEvent.status saved = ALERT <->
        ~ (AIAnalysis.target_found verdict = true /\ 75 <= AIAnalysis.confidence verdict)).
Proof.
  intros Hsaved Hfound Hno_alert.
  destruct (process_new_file_saved env file_path st)
    as [Hsame | (meta & gov_data & st2 & decided & _ & Hfiles & _ & Hdecide & Hrow)].
  { rewrite Hsame in Hsaved. rewrite <- (app_nil_r (events st)) in Hsaved at 1.
    apply app_inv_head in Hsaved. discriminate. }
  rewrite Hrow in Hsaved. apply app_inv_head in Hsaved. injection Hsaved as <-.
  pose proof (classify_gov_data _ _ _ _ _ _ _ Hdecide) as Hgov.
  cbn in Hgov, Hfound, Hno_alert. rewrite Hgov in Hfound, Hno_alert.
  rewrite classify_full_verification in Hdecide by done.
  rewrite (analyze_vehicle_image_files _ _ _ _ st st2 Hfiles) in Hdecide.
  cbn zeta in Hdecide. injection Hdecide as <-. cbn.
  set (verdict := (analyze_vehicle_image env file_path gov_data (lpr meta) st).1).
  split; [reflexivity|].
  unfold Config.AI_CONFIDENCE_THRESHOLD.
  destruct (AIAnalysis.target_found verdict); cbn [andb].
  - destruct (75 <=? AIAnalysis.confidence verdict) eqn:Hconf.
    + apply Z.leb_le in Hconf. split; [tauto|]. split; [discriminate|]. tauto.
    + apply Z.leb_gt in Hconf. split.
      * split; [discriminate|]. lia.
      * split; [|reflexivity]. lia.
  - split; [split; [discriminate | intros [[=] _]]|].
    split; [intros _ [[=] _] | reflexivity].
Qed.

Lemma full_verification_threshold_witness :
  let registry := Fixture.one_registry "main" "1234567" {[ "tozeret_nm" := "Toyota" ]} in
  let file_path := Fixture.capture "1234567" in
  let run confidence :=
    (process_new_file
       (Fixture.env registry (ReplyContent (Fixture.verdict_text "true" confidence))
          (ReplyError ""))
       file_path (Fixture.watching file_path)).2 in
  VehicleEvent.status (last_saved (run "75")) = VERIFIED
  /\ VehicleEvent.status (last_saved (run "74")) = ALERT.
Proof.
  intros registry file_path run. split.
  - apply (proj2 (full_verification_threshold
                    (Fixture.env registry
                       (ReplyContent (Fixture.verdict_text "true" "75")) (ReplyError ""))
                    file_path (Fixture.watching file_path) (last_saved (run "75"))
                    ltac:(vm_compute; reflexivity) ltac:(vm_compute; reflexivity)
                    ltac:(vm_compute; reflexivity))).
    vm_compute. split; [reflexivity | discriminate].
  - apply (proj2 (full_verification_threshold
                    (Fixture.env registry
                       (ReplyContent (Fixture.verdict_text "true" "74")) (ReplyError ""))
                    file_path (Fixture.watching file_path) (last_saved (run "74"))
                    ltac:(vm_compute; reflexivity) ltac:(vm_compute; reflexivity)
                    ltac:(vm_compute; reflexivity))).
    vm_compute. intros [_ H]. apply H. reflexivity.
Defined.

(** *** The fake-plate path *)

Lemma detect_yellow_plate_files env image_path st st' :
  files st' = files st ->
  (detect_yellow_plate env image_path st').1 = (detect_yellow_plate env image_path st).1.
Proof.
  intros Hfiles. rewrite !detect_yellow_plate_run, Hfiles.
  by destruct (bool_decide _).
Qed.

(** C1, as amended: for a run that passes the local filters and the
    pre-screen and whose plate has a positive match in no configured
    registry, the yellow-plate check decides.  If the check is negative the
    run returns with the source file gone, the store unchanged and nothing
    broadcast.  If it is positive the run adds exactly one row, with status
    FAKE_PLATE, with the resolver's not-found record, and with the
    synthetic verdict of that path, whose target-found flag is false and
    whose confidence is 0; that row is broadcast and the file is moved to
    the processed folder. *)
Theorem fake_plate_gated_by_yellow_check (env : Env) (file_path : string)
    (st : State) (meta : FileMeta) :
  parse_filename (Py.path_name file_path) = Valid meta ->
  validate_lpr (lpr meta) = true ->
  suffix_excluded (lpr meta) = Some false ->
  truthy (skip (pre_screen_image env file_path st).1) = false ->
  Forall (fun k => registry_match env Config.GOV_DATABASES (lpr meta) k = None)
         Config.GOV_SEARCH_ORDER ->
  let yellow := (detect_yellow_plate env file_path st).1 in
  let st' := (process_new_file env file_path st).2 in
  (process_new_file env file_path st).1 = Returned
  /\ (truthy yellow = false ->
      (file_path ∉ files st')
      /\ events st' = events st
      /\ broadcasts st' = broadcasts st)
  /\ (truthy yellow = true ->
      exists saved stats,
        events st' = events st ++ [saved]
        /\ VehicleEvent.status saved = FAKE_PLATE
        /\ VehicleEvent.gov_data saved = fake_plate_record
        /\ VehicleEvent.ai_analysis saved
           = synthetic "🔴 לוחית מזויפת! הרכב לא קיים באף מאגר ממשלתי" false 0
        /\ AIAnalysis.target_found (VehicleEvent.ai_analysis saved) = false
        /\ AIAnalysis.confidence (VehicleEvent.ai_analysis saved) = 0
        /\ broadcasts st' = broadcasts st ++ [new_event saved; stats_update stats]
        /\ Config.PROCESSED_FOLDER +:+ "/" +:+ Py.path_name file_path ∈ files st').
Proof.
  intros Hparse Hvalid Hsuffix Hskip Hnone yellow st'. subst yellow st'.
  pose proof (proj1 (proj1 (validate_lpr_iff _) Hvalid)) as Hdigit.
  rewrite (process_new_file_admitted env file_path st meta) by done.
  pose proof (pre_screen_image_frame env file_path st) as Hpre.
  destruct (pre_screen_image env file_path st) as [pre_screen st1].
  cbn [fst snd] in Hpre, Hskip. destruct Hpre as (Hf1 & He1 & Hr1 & Hb1).
  rewrite Hskip.
  unfold get_vehicle_data, search_all_databases.
  rewrite (search_in_no_match _ _ _ _ _ Hnone).
  set (st2 := with_requests _ st1).
  assert (Hf2 : files st2 = files st) by exact Hf1.
  assert (He2 : events st2 = events st) by exact He1.
  assert (Hb2 : broadcasts st2 = broadcasts st) by exact Hb1.
  clearbody st2.
  rewrite <- (detect_yellow_plate_files env file_path st st2 Hf2).
  unfold classify.
  change (has_alert fake_plate_record) with true.
  replace (alert_is fake_plate_record "FAKE_PLATE") with true
    by (symmetry; by apply bool_decide_eq_true_2).
  unfold mbind, M_bind, mret, M_ret.
  pose proof (detect_yellow_plate_run env file_path st2) as Hrun.
  destruct (detect_yellow_plate env file_path st2) as [yellow st3].
  cbn [fst].
  assert (Hst3 : files st3 = files st /\ events st3 = events st
                 /\ broadcasts st3 = broadcasts st
                 /\ (truthy yellow = true -> file_path ∈ files st3)).
  { destruct (decide (file_path ∈ files st2)) as [Hin|Hout].
    - rewrite (bool_decide_eq_true_2 _ Hin) in Hrun.
      pose proof (f_equal snd Hrun) as Hs. cbn [snd] in Hs. subst st3.
      split; [exact Hf2|]. split; [exact He2|]. split; [exact Hb2|].
      intros _. exact Hin.
    - rewrite (bool_decide_eq_false_2 _ Hout) in Hrun.
      pose proof (f_equal fst Hrun) as Hy. pose proof (f_equal snd Hrun) as Hs.
      cbn [fst snd] in Hy, Hs. subst st3 yellow.
      split; [exact Hf2|]. split; [exact He2|]. split; [exact Hb2|].
      discriminate. }
  destruct Hst3 as (Hf3 & He3 & Hb3 & Hpresent).
  destruct (truthy yellow) eqn:Hyellow; cbn [negb].
  - split; [done|]. split; [discriminate|]. intros _.
    match goal with
    | |- context [persist ?p ?f ?e ?s] =>
        destruct (persist_run p f e s) as (Hev & _ & _ & _ & [stats Hbr] & Hfiles)
    end.
    cbn [snd]. eexists _, stats.
    rewrite Hev, Hbr, Hfiles, He3, Hb3.
    rewrite bool_decide_eq_true_2 by auto.
    repeat split. rewrite elem_of_union, elem_of_singleton. by right.
  - split; [unfold try_unlink, modify; done|]. split; [|discriminate]. intros _.
    unfold try_unlink, modify. cbn. rewrite Hf3, He3, Hb3. repeat split.
    rewrite elem_of_difference, elem_of_singleton. tauto.
Qed.

Lemma fake_plate_gated_by_yellow_check_witness :
  let file_path := Fixture.capture "8888888" in
  let run yellow :=
    (process_new_file
       (Fixture.env Fixture.no_registry (ReplyError "")
          (ReplyContent (Fixture.yellow_text yellow "80")))
       file_path (Fixture.watching file_path)).2 in
  ((file_path ∉ files (run "false"))
   /\ events (run "false") = [] /\ broadcasts (run "false") = [])
  /\ VehicleEvent.status (last_saved (run "true")) = FAKE_PLATE.
Proof.
  intros file_path run.
  pose (meta := {| location_id := "9908_01"; raw_date := "20251211";
                   display_time := "12:14:34"; display_date := "11/12/2025";
                   lpr := "8888888" |}).
  assert (Hnone : forall env_yellow,
             Forall (fun k => registry_match
                                (Fixture.env Fixture.no_registry (ReplyError "") env_yellow)
                                Config.GOV_DATABASES (lpr meta) k = None)
                    Config.GOV_SEARCH_ORDER).
  { intros env_yellow. repeat constructor. }
  assert (Hparse : parse_filename (Py.path_name file_path) = Valid meta)
    by (vm_compute; reflexivity).
  assert (Hvalid : validate_lpr (lpr meta) = true) by (vm_compute; reflexivity).
  assert (Hsuffix : suffix_excluded (lpr meta) = Some false)
    by (vm_compute; reflexivity).
  assert (Hskip : forall env_yellow,
             truthy (skip (pre_screen_image
                             (Fixture.env Fixture.no_registry (ReplyError "") env_yellow)
                             file_path (Fixture.watching file_path)).1) = false)
    by (intros env_yellow; vm_compute; reflexivity).
  split.
  - apply (proj1 (proj2 (fake_plate_gated_by_yellow_check
                           (Fixture.env Fixture.no_registry (ReplyError "")
                              (ReplyContent (Fixture.yellow_text "false" "80")))
                           file_path (Fixture.watching file_path) meta
                           Hparse Hvalid Hsuffix (Hskip _) (Hnone _)))).
    vm_compute. reflexivity.
  - destruct (proj2 (proj2 (fake_plate_gated_by_yellow_check
                              (Fixture.env Fixture.no_registry (ReplyError "")
                                 (ReplyContent (Fixture.yellow_text "true" "80")))
                              file_path (Fixture.watching file_path) meta
                              Hparse Hvalid Hsuffix (Hskip _) (Hnone _)))
                ltac:(vm_compute; reflexivity))
      as (saved & stats & Hev & Hstatus & _).
    unfold last_saved, run. rewrite Hev. simpl. exact Hstatus.
Defined.

(** C1, as worded, fails: with plate [8888888] in no registry and a
    yellow-plate reply that is positive with confidence 80, the one row the
    run saves has status FAKE_PLATE and a verdict with the target-found
    flag false and confidence 0, which is not a high-confidence verdict. *)
Lemma fake_plate_verdict_not_high_confidence :
  let file_path := Fixture.capture "8888888" in
  let st' :=
    (process_new_file
       (Fixture.env Fixture.no_registry (ReplyError "")
          (ReplyContent (Fixture.yellow_text "true" "80")))
       file_path (Fixture.watching file_path)).2 in
  (exists saved,
      events st' = [saved]
      /\ VehicleEvent.status saved = FAKE_PLATE
      /\ AIAnalysis.target_found (VehicleEvent.ai_analysis saved) = false
      /\ AIAnalysis.confidence (VehicleEvent.ai_analysis saved) = 0)
  /\ ~ (exists saved,
          events st' = [saved]
          /\ VehicleEvent.status saved = FAKE_PLATE
          /\ high_confidence (VehicleEvent.ai_analysis saved)).
Proof.
  intros file_path st'.
  assert (Hev : events st' = [last_saved st']) by (vm_compute; reflexivity).
  split.
  - exists (last_saved st'). split; [exact Hev|].
    split; [vm_compute; reflexivity|].
    split; vm_compute; reflexivity.
  - intros (saved & Hsaved & _ & Hhigh).
    rewrite Hev in Hsaved.
    pose proof (f_equal (fun rows => List.nth 0 rows saved) Hsaved) as Hrow.
    cbn [List.nth] in Hrow. rewrite <- Hrow in Hhigh.
    vm_compute in Hhigh. by apply Hhigh.
Qed.

(** *** Side results *)

(** No run ends in an exception: the conversion in the suffix test is
    only reached with an all-digit plate. *)
Lemma process_new_file_returns env file_path st :
  (process_new_file env file_path st).1 = Returned.
Proof.
  destruct (parse_filename (Py.path_name file_path)) as [err|meta] eqn:Hparse.
  { by rewrite process_new_file_unparsable by (by rewrite Hparse). }
  destruct (Py.isdigit (lpr meta)) eqn:Hdigit.
  2:{ by rewrite (process_new_file_letters env file_path st meta). }
  destruct (validate_lpr (lpr meta)) eqn:Hvalid.
  2:{ by rewrite (process_new_file_bad_length env file_path st meta). }
  destruct (suffix_excluded (lpr meta)) as [[]|] eqn:Hsuffix.
  { by rewrite (process_new_file_suffix env file_path st meta). }
  2:{ destruct (suffix_excluded_defined _ Hdigit) as [b Hb]. congruence. }
  rewrite (process_new_file_admitted env file_path st meta) by done.
  destruct (pre_screen_image env file_path st) as [pre_screen st1].
  destruct (truthy (skip pre_screen)); [done|].
  destruct (get_vehicle_data env (lpr meta) st1) as [gov_data st2].
  by destruct (classify _ _ _ _ _ st2) as [[decided|] st3].
Qed.

(** An alert kind outside the configured ones would reach [save_event]
    unclassified: the decision hands the event on as it got it. *)
Lemma classify_unlisted_alert env file_path lpr event gov_data st :
  GovData.alert_type gov_data = Some "STOLEN" ->
  classify env file_path lpr event gov_data st = (Some event, st).
Proof.
  intros Hkind. unfold classify, has_alert, alert_is. rewrite Hkind.
  by rewrite !bool_decide_eq_false_2 by discriminate.
Qed.

(** The plate of scenario D of the design text is itself removed by the
    suffix filter, before any registry is consulted. *)
Lemma scenario_D_plate_is_suffix_excluded :
  suffix_excluded "9999999" = Some true.
Proof. reflexivity. Qed.

(** A registry whose first record is the empty dictionary does not stop
    the loop, although [search_single_database] answers [True] for it. *)
Lemma empty_record_is_no_match env databases lpr db_key db_info rest :
  databases !! db_key = Some db_info ->
  gov_api env (Config.resource_id db_info) lpr = ApiData true (∅ :: rest) ->
  registry_match env databases lpr db_key = None.
Proof.
  intros Hdb Hreply. unfold registry_match. rewrite Hdb. simpl. by rewrite Hreply.
Qed.

(** * Further properties *)

(** ** Text operations *)

Lemma length_str_app (a b : string) :
  String.length (a +:+ b) = (String.length a + String.length b)%nat.
Proof. induction a as [|c a IH]; simpl; [done | by rewrite IH]. Qed.

Lemma lacks_app c (a b : string) :
  PyText.lacks c (a +:+ b) = PyText.lacks c a && PyText.lacks c b.
Proof.
  induction a as [|d a IH]; simpl; [done|]. rewrite IH. by rewrite andb_assoc.
Qed.

Lemma split_lacks c (s : string) :
  PyText.lacks c s = true -> Py.split c s = [s].
Proof.
  induction s as [|d s IH]; simpl; [done|].
  intros [Hd Hs]%andb_true_iff. apply negb_true_iff in Hd. rewrite Hd.
  by rewrite IH.
Qed.

Lemma split_app c (a b : string) :
  PyText.lacks c a = true ->
  Py.split c (a +:+ String c b) = a :: Py.split c b.
Proof.
  induction a as [|d a IH]; simpl.
  - intros _. by rewrite Ascii.eqb_refl.
  - intros [Hd Ha]%andb_true_iff. apply negb_true_iff in Hd. rewrite Hd.
    by rewrite IH.
Qed.

Lemma split_join c (parts : list string) :
  parts <> [] ->
  Forall (fun p => PyText.lacks c p = true) parts ->
  Py.split c (PyText.join (String c EmptyString) parts) = parts.
Proof.
  induction parts as [|p rest IH]; [done|]. intros _ Hall.
  apply Forall_cons in Hall as [Hp Hrest].
  destruct rest as [|q rest].
  - simpl. by apply split_lacks.
  - change (PyText.join (String c EmptyString) (p :: q :: rest))
      with (p +:+ String c (PyText.join (String c EmptyString) (q :: rest))).
    rewrite split_app by done. f_equal. by apply IH.
Qed.

Lemma lacks_join c sep (parts : list string) :
  PyText.lacks c sep = true ->
  Forall (fun p => PyText.lacks c p = true) parts ->
  PyText.lacks c (PyText.join sep parts) = true.
Proof.
  intros Hsep. induction 1 as [|p rest Hp Hrest IH]; [done|].
  destruct rest as [|q rest]; [done|].
  change (PyText.join sep (p :: q :: rest))
    with (p +:+ sep +:+ PyText.join sep (q :: rest)).
  rewrite !lacks_app, Hp, Hsep, IH. done.
Qed.

Lemma rfind_from_lacks c (s : string) i last :
  PyText.lacks c s = true -> Py.rfind_from c s i last = last.
Proof.
  revert i last. induction s as [|d s IH]; intros i last; simpl; [done|].
  intros [Hd Hs]%andb_true_iff. apply negb_true_iff in Hd. rewrite Hd.
  by apply IH.
Qed.

Lemma rfind_from_app c (a b : string) i last :
  PyText.lacks c b = true ->
  Py.rfind_from c (a +:+ String c b) i last = i + Py.len a.
Proof.
  intros Hb. revert i last. induction a as [|d a IH]; intros i last; simpl.
  - rewrite Ascii.eqb_refl, rfind_from_lacks by done. unfold Py.len. simpl. lia.
  - rewrite IH. unfold Py.len. simpl. lia.
Qed.

Lemma take_app_exact (a b : string) :
  Py.take (String.length a) (a +:+ b) = a.
Proof.
  unfold Py.take. induction a as [|c a IH]; simpl.
  - by destruct b.
  - by rewrite IH.
Qed.

Lemma drop_app_exact (a b : string) :
  Py.drop (String.length a) (a +:+ b) = b.
Proof. induction a as [|c a IH]; simpl; [by destruct b | done]. Qed.

(** A name without a slash, neither empty nor a lone dot, is its own
    final component. *)
Lemma path_name_plain (name : string) :
  PyText.lacks "/" name = true -> name <> "" -> name <> "." ->
  Py.path_name name = name.
Proof.
  intros Hslash Hne Hdot. unfold Py.path_name, Py.path_parts.
  rewrite split_lacks by done. simpl.
  destruct (String.eqb_spec name ""); [done|].
  by destruct (String.eqb_spec name ".").
Qed.

(** The stem and the suffix of [base.ext]. *)
Lemma stem_suffix_of_name (base ext : string) :
  PyText.lacks "/" base = true -> PyText.lacks "/" ext = true ->
  PyText.lacks "." ext = true -> base <> "" -> ext <> "" ->
  Py.stem (base +:+ "." +:+ ext) = base
  /\ PyText.suffix (base +:+ "." +:+ ext) = "." +:+ ext.
Proof.
  intros Hb He Hdot Hbase Hext.
  assert (Hlen : String.length (base +:+ "." +:+ ext)
                 = (String.length base + 1 + String.length ext)%nat).
  { rewrite !length_str_app. simpl. lia. }
  assert (Hlb : (0 < String.length base)%nat) by (destruct base; [done | simpl; lia]).
  assert (Hle : (0 < String.length ext)%nat) by (destruct ext; [done | simpl; lia]).
  assert (Hname : Py.path_name (base +:+ "." +:+ ext) = base +:+ "." +:+ ext).
  { apply path_name_plain.
    - rewrite lacks_app, Hb. simpl. exact He.
    - intros H. rewrite H in Hlen. simpl in Hlen. lia.
    - intros H. rewrite H in Hlen. simpl in Hlen. lia. }
  unfold Py.stem, PyText.suffix. rewrite Hname.
  unfold Py.rfind. change (base +:+ "." +:+ ext) with (base +:+ String "." ext).
  rewrite rfind_from_app by done.
  change (base +:+ String "." ext) with (base +:+ "." +:+ ext).
  unfold Py.len. rewrite Hlen.
  replace (0 <? 0 + Z.of_nat (String.length base)) with true
    by (symmetry; apply Z.ltb_lt; lia).
  replace (0 + Z.of_nat (String.length base)
           <? Z.of_nat (String.length base + 1 + String.length ext) - 1) with true
    by (symmetry; apply Z.ltb_lt; lia).
  cbn [andb].
  replace (Z.to_nat (0 + Z.of_nat (String.length base))) with (String.length base) by lia.
  split; [apply take_app_exact | apply drop_app_exact].
Qed.

(** X1: decoding recovers the fields a conventional name was built from.
    For components without underscore or slash, a timestamp of at least 14
    characters and a non-empty extension without dot or slash, the name
    [siteA_siteB_timestamp_plate[_more...].ext] decodes to the location
    [siteA_siteB], the date and time cut from the timestamp, and the plate
    itself; components after the plate and the extension play no part. *)
Theorem parse_filename_recovers_fields
    (site_a site_b ts plate ext : string) (more : list string) :
  Forall (fun p => PyText.lacks "_" p = true /\ PyText.lacks "/" p = true)
         (site_a :: site_b :: ts :: plate :: more) ->
  PyText.lacks "." ext = true -> PyText.lacks "/" ext = true -> ext <> "" ->
  (14 <= String.length ts)%nat ->
  parse_filename
    (PyText.join "_" (site_a :: site_b :: ts :: plate :: more) +:+ "." +:+ ext)
  = Valid {| location_id := site_a +:+ "_" +:+ site_b;
             raw_date := substring 0 8 ts;
             display_time :=
               substring 8 2 ts +:+ ":" +:+ substring 10 2 ts +:+ ":" +:+ substring 12 2 ts;
             display_date :=
               substring 6 2 ts +:+ "/" +:+ substring 4 2 ts +:+ "/" +:+ substring 0 4 ts;
             lpr := plate |}.
Proof.
  intros Hparts Hdot Hslash Hext Hts.
  set (parts := site_a :: site_b :: ts :: plate :: more) in *.
  assert (Hunder : Forall (fun p => PyText.lacks "_" p = true) parts)
    by (eapply Forall_impl; [exact Hparts | by intros ? [? ?]]).
  assert (Hsl : Forall (fun p => PyText.lacks "/" p = true) parts)
    by (eapply Forall_impl; [exact Hparts | by intros ? [? ?]]).
  assert (Hbase : PyText.join "_" parts <> "").
  { intros H. pose proof (f_equal String.length H) as Hl.
    unfold parts in Hl.
    change (PyText.join "_" (site_a :: site_b :: ts :: plate :: more))
      with (site_a +:+ "_" +:+ PyText.join "_" (site_b :: ts :: plate :: more)) in Hl.
    rewrite !length_str_app in Hl. simpl in Hl. lia. }
  unfold parse_filename.
  rewrite (proj1 (stem_suffix_of_name (PyText.join "_" parts) ext
                    (lacks_join "/" "_" parts eq_refl Hsl) Hslash Hdot Hbase Hext)).
  rewrite (split_join "_" parts) by done.
  unfold parts. cbn -[Py.drop Py.take Py.slice Py.len].
  rewrite (proj2 (len_lt_14 ts) Hts).
  destruct (take_take_14 ts Hts) as (E1 & E2 & E3 & E4 & E5 & E6 & E7).
  by rewrite E2, E3, E4, E5, E6, E7, E1.
Qed.

Lemma parse_filename_recovers_fields_witness :
  parse_filename "cam7_north_20240229235959123_87654321_2_frontview.PNG"
  = Valid {| location_id := "cam7_north"; raw_date := "20240229";
             display_time := "23:59:59"; display_date := "29/02/2024";
             lpr := "87654321" |}.
Proof.
  apply (parse_filename_recovers_fields "cam7" "north" "20240229235959123" "87654321"
           "PNG" ["2"; "frontview"]).
  - repeat constructor.
  - reflexivity.
  - reflexivity.
  - discriminate.
  - vm_compute. lia.
Defined.

(** ** The plate filters *)






(** ** The registry resolver, continued *)

Lemma get_or_truthy record key rest :
  Py.truthy_str rest = true -> Py.truthy_str (get_or record key rest) = true.
Proof.
  intros Hrest. unfold get_or.
  destruct (record !! key) as [v|]; [|done].
  by destruct (Py.truthy_str v) eqn:Hv.
Qed.

Lemma get_or_first record key rest v :
  record !! key = Some v -> v <> "" -> get_or record key rest = v.
Proof. intros Hk Hv. unfold get_or. rewrite Hk. by destruct v. Qed.

Lemma get_or_next record key rest :
  (forall v, record !! key = Some v -> v = "") -> get_or record key rest = rest.
Proof.
  intros Hnone. unfold get_or. destruct (record !! key) as [v|]; [|done].
  by rewrite (Hnone v eq_refl).
Qed.

(** X4: the data extracted from a record never has an empty field: each
    of the four is a non-empty text.  The manufacturer is the value of
    [tozeret_nm] when that is present and not empty, whatever the other
    keys hold; with that key absent or empty it is the value of
    [tozeret_cd], then of [tozeret]; and it is the unknown sentinel exactly
    when none of the three keys has a non-empty value. *)
Theorem extract_vehicle_data_fallback (record : gmap string string) :
  let data := extract_vehicle_data record in
  (vd_manufacturer data <> "" /\ vd_model data <> ""
   /\ vd_color data <> "" /\ vd_year data <> "")
  /\ (forall v, record !! "tozeret_nm" = Some v -> v <> "" -> vd_manufacturer data = v)
  /\ (forall v, (forall w, record !! "tozeret_nm" = Some w -> w = "") ->
                record !! "tozeret_cd" = Some v -> v <> "" ->
                vd_manufacturer data = v)
  /\ (forall v, (forall w, record !! "tozeret_nm" = Some w -> w = "") ->
                (forall w, record !! "tozeret_cd" = Some w -> w = "") ->
                record !! "tozeret" = Some v -> v <> "" ->
                vd_manufacturer data = v)
  /\ ((forall w, record !! "tozeret_nm" = Some w -> w = "") ->
      (forall w, record !! "tozeret_cd" = Some w -> w = "") ->
      (forall w, record !! "tozeret" = Some w -> w = "") ->
      vd_manufacturer data = "לא ידוע").
Proof.
  assert (Hne : forall s, Py.truthy_str s = true -> s <> "")
    by (by intros [|? ?]).
  unfold extract_vehicle_data. cbn [vd_manufacturer vd_model vd_color vd_year].
  split.
  { repeat split; apply Hne; repeat apply get_or_truthy; reflexivity. }
  split; [intros v Hv Hnv; by apply get_or_first|].
  split.
  { intros v H1 Hv Hnv. rewrite get_or_next by done. by apply get_or_first. }
  split.
  { intros v H1 H2 Hv Hnv. rewrite !get_or_next by done. by apply get_or_first. }
  intros H1 H2 H3. by rewrite !get_or_next.
Qed.

Lemma extract_vehicle_data_fallback_witness :
  vd_manufacturer
    (extract_vehicle_data {[ "tozeret_nm" := ""; "tozeret_cd" := "413";
                             "tozeret" := "Toyota" ]}) = "413".
Proof.
  apply (proj1 (proj2 (proj2 (extract_vehicle_data_fallback
                                {[ "tozeret_nm" := ""; "tozeret_cd" := "413";
                                   "tozeret" := "Toyota" ]})))).
  - intros w Hw. vm_compute in Hw. by injection Hw as <-.
  - vm_compute. reflexivity.
  - discriminate.
Defined.

(** The answer of the loop is the not-found record, or the record built
    from a configured registry of the list and a non-empty record of it. *)
Lemma search_in_answer env databases order lpr st :
  (search_in env databases order lpr st).1 = fake_plate_record
  \/ exists db_key db_info record,
       db_key ∈ order
       /\ databases !! db_key = Some db_info
       /\ record <> ∅
       /\ (search_in env databases order lpr st).1 = found_record db_info record.
Proof.
  revert st. induction order as [|k rest IH]; intros st; [by left|].
  destruct (registry_match env databases lpr k) as [[db_info record]|] eqn:Hm.
  - right. exists k, db_info, record.
    rewrite (search_in_hit _ _ _ _ _ _ _ _ Hm).
    split; [apply list_elem_of_here|].
    split; [by eapply registry_match_configured|]. split; [|done].
    unfold registry_match in Hm.
    destruct (databases !! k) as [info|]; [|discriminate]. simpl in Hm.
    destruct (gov_api env _ lpr) as [|[] [|r ?]]; try discriminate.
    unfold truthy_record in Hm. destruct (bool_decide (r = ∅)) eqn:Hr; [discriminate|].
    apply bool_decide_eq_false in Hr. by injection Hm as _ <-.
  - rewrite (search_in_skip _ _ _ _ _ _ Hm).
    destruct (IH (with_requests (requests st ++ queries databases lpr [k]) st))
      as [Hfake | (db_key & db_info & record & Hin & Hdb & Hne & Heq)].
    + by left.
    + right. exists db_key, db_info, record.
      split; [by apply list_elem_of_further|]. done.
Qed.

Lemma GOV_DATABASES_registry_alerts :
  map_Forall (fun _ db_info => registry_alert (Config.alert_type db_info))
             Config.GOV_DATABASES.
Proof.
  match goal with |- ?P => apply (bool_decide_unpack P) end.
  vm_compute. exact I.
Qed.

(** X5: what [search_all_databases] returns is either the not-found
    record, with [found = false] and the alert kind FAKE_PLATE, or a record
    with [found = true] built from a configured registry of the search
    order: its source is that registry's name, its alert kind is that
    registry's (none, NO_LICENSE or OFF_ROAD, never FAKE_PLATE), and its
    manufacturer, model, color and year are all present and non-empty.  So
    [found] is false exactly when the alert kind is FAKE_PLATE. *)
Theorem search_all_databases_answer (env : Env) (lpr : string) (st : State) :
  let gov_data := (search_all_databases env lpr st).1 in
  (gov_data = fake_plate_record
   \/ exists db_key db_info,
        db_key ∈ Config.GOV_SEARCH_ORDER
        /\ Config.GOV_DATABASES !! db_key = Some db_info
        /\ GovData.found gov_data = true
        /\ GovData.source_db gov_data = Some (Config.name db_info)
        /\ GovData.alert_type gov_data = Config.alert_type db_info
        /\ registry_alert (GovData.alert_type gov_data)
        /\ GovData.error gov_data = None
        /\ (exists m, GovData.manufacturer gov_data = Some m /\ m <> "")
        /\ (exists m, GovData.model gov_data = Some m /\ m <> "")
        /\ (exists c, GovData.color gov_data = Some c /\ c <> "")
        /\ (exists y, GovData.year gov_data = Some y /\ y <> ""))
  /\ (GovData.found gov_data = false <->
      GovData.alert_type gov_data = Some "FAKE_PLATE").
Proof.
  assert (Hne : forall s, Py.truthy_str s = true -> s <> "") by (by intros [|? ?]).
  unfold search_all_databases.
  destruct (search_in_answer env Config.GOV_DATABASES Config.GOV_SEARCH_ORDER lpr st)
    as [-> | (db_key & db_info & record & Hin & Hdb & _ & ->)].
  { split; [by left | done]. }
  pose proof (GOV_DATABASES_registry_alerts db_key db_info Hdb) as Hkind.
  cbn beta in Hkind. split.
  - right. exists db_key, db_info.
    do 7 (split; [done|]).
    unfold found_record, extract_vehicle_data; cbn.
    repeat split; eexists; (split; [reflexivity|]);
      apply Hne; repeat apply get_or_truthy; reflexivity.
  - cbn. split; [discriminate|]. intros Hfake. rewrite Hfake in Hkind.
    unfold registry_alert in Hkind.
    repeat (apply elem_of_cons in Hkind as [Hkind|Hkind]; [discriminate|]).
    by apply elem_of_nil in Hkind.
Qed.

(** The requests of the loop are those of a prefix of the list. *)
Lemma search_in_sent env databases order lpr st :
  exists n,
    (search_in env databases order lpr st).2
    = with_requests (requests st ++ queries databases lpr (take n order)) st.
Proof.
  revert st. induction order as [|k rest IH]; intros st.
  - exists 0%nat. simpl. by rewrite with_requests_nil.
  - destruct (registry_match env databases lpr k) as [[db_info record]|] eqn:Hm.
    + exists 1%nat. by rewrite (search_in_hit _ _ _ _ _ _ _ _ Hm).
    + rewrite (search_in_skip _ _ _ _ _ _ Hm).
      destruct (IH (with_requests (requests st ++ queries databases lpr [k]) st))
        as [n ->].
      exists (S n). rewrite with_requests_app.
      by rewrite <- queries_app.
Qed.

Lemma queries_resources lpr keys :
  queries Config.GOV_DATABASES lpr keys
  = (fun resource_id => GovQuery resource_id lpr)
      <$> omap (fun db_key => Config.resource_id <$> Config.GOV_DATABASES !! db_key) keys.
Proof.
  unfold queries. induction keys as [|k keys IH]; [done|].
  cbn [omap list_omap]. rewrite IH.
  by destruct (Config.GOV_DATABASES !! k).
Qed.

Lemma search_resources_distinct :
  NoDup search_resources /\ length search_resources = 10%nat.
Proof.
  split; [|vm_compute; reflexivity].
  match goal with |- ?P => apply (bool_decide_unpack P) end.
  vm_compute. exact I.
Qed.

(** X6: one resolution sends at most one request to each configured
    registry, in the search order and for the plate asked: the requests it
    adds to those already sent are the keyed queries of a prefix of the ten
    configured resources, so there are at most ten and no resource is
    asked twice; the rest of the state is untouched. *)
Theorem search_all_databases_requests (env : Env) (lpr : string) (st : State) :
  exists resources,
    resources `prefix_of` search_resources
    /\ NoDup resources
    /\ (length resources <= 10)%nat
    /\ (search_all_databases env lpr st).2
       = with_requests
           (requests st ++ ((fun resource_id => GovQuery resource_id lpr) <$> resources))
           st.
Proof.
  unfold search_all_databases.
  destruct (search_in_sent env Config.GOV_DATABASES Config.GOV_SEARCH_ORDER lpr st)
    as [n ->].
  rewrite queries_resources.
  destruct search_resources_distinct as [Hnodup Hlen].
  assert (Hprefix :
            omap (fun db_key => Config.resource_id <$> Config.GOV_DATABASES !! db_key)
                 (take n Config.GOV_SEARCH_ORDER)
            `prefix_of` search_resources).
  { unfold search_resources.
    rewrite <- (take_drop n Config.GOV_SEARCH_ORDER) at 2.
    rewrite omap_app. by apply prefix_app_r. }
  eexists. split; [exact Hprefix|].
  split; [|split; [|reflexivity]].
  - destruct Hprefix as [rest Hrest]. rewrite Hrest in Hnodup.
    by apply NoDup_app in Hnodup as [? _].
  - apply prefix_length in Hprefix. lia.
Qed.

(** X7: when the registry service answers no request for a plate (every
    request fails, is unsuccessful, or carries no record), the resolver
    asks all ten registries and returns the not-found record: an outage of
    the service makes every plate a FAKE_PLATE candidate. *)
Theorem registry_outage_is_fake_plate (env : Env) (lpr : string) (st : State) :
  (forall resource_id,
      match gov_api env resource_id lpr with
      | ApiData true (_ :: _) => False
      | _ => True
      end) ->
  search_all_databases env lpr st
  = (fake_plate_record,
     with_requests
       (requests st ++ ((fun resource_id => GovQuery resource_id lpr) <$> search_resources))
       st).
Proof.
  intros Hout. unfold search_all_databases.
  rewrite search_in_no_match.
  - by rewrite queries_resources.
  - apply Forall_forall. intros k _. unfold registry_match.
    destruct (Config.GOV_DATABASES !! k) as [info|]; [|done]. simpl.
    specialize (Hout (Config.resource_id info)).
    by destruct (gov_api env (Config.resource_id info) lpr) as [|[] [|? ?]].
Qed.

Lemma registry_outage_is_fake_plate_witness :
  let env :=
    {| gov_api := fun _ _ => ApiError;
       ai_analyze := fun _ _ _ => ReplyError "";
       ai_pre_screen := fun _ => ReplyError "";
       ai_yellow_plate := fun _ => ReplyError "";
       json_loads := fun _ => None;
       int_of_str := fun _ => None;
       bool_of_str := fun _ => None;
       now := 0 |} in
  (search_all_databases env "1234567" (Fixture.watching "f")).1 = fake_plate_record.
Proof.
  intros env.
  by rewrite (registry_outage_is_fake_plate env "1234567" (Fixture.watching "f")
                (fun _ => I)).
Defined.

(** ** The vision adapter, continued *)

Lemma new_analysis_fields env scene manufacturer found conf details reason a :
  new_analysis env scene manufacturer found conf details reason = Some a ->
  as_bool env found = Some (AIAnalysis.target_found a)
  /\ AIAnalysis.confidence a = conf
  /\ as_str scene = Some (AIAnalysis.scene_description a).
Proof.
  unfold new_analysis.
  destruct (as_str scene) as [s|]; [|discriminate].
  destruct (as_opt_str manufacturer) as [m|]; [|discriminate].
  destruct (as_bool env found) as [f|]; [|discriminate].
  destruct (as_opt_str details) as [d|]; [|discriminate].
  destruct (as_opt_str reason) as [r|]; [|discriminate].
  cbn. by intros [= <-].
Qed.

(** A verdict with the target found comes from a decoded payload. *)
Lemma analysis_of_reply_evidence env r :
  AIAnalysis.target_found (analysis_of_reply env r) = true ->
  exists content result,
    r = ReplyContent content
    /\ extract_json env content = Some result
    /\ as_bool env (dict_get result "target_found" (JBool false)) = Some true
    /\ py_int env (dict_get result "confidence" (JNum 0))
       = IntOk (AIAnalysis.confidence (analysis_of_reply env r)).
Proof.
  unfold analysis_of_reply.
  destruct r as [msg|content]; [discriminate|].
  destruct (extract_json env content) as [result|] eqn:Hjson; [|discriminate].
  destruct (py_int env (dict_get result "confidence" (JNum 0))) as [n| |msg] eqn:Hint;
    [|discriminate..].
  destruct (new_analysis env _ _ _ n _ _) as [a|] eqn:Hnew; [|discriminate].
  intros Hfound.
  destruct (new_analysis_fields _ _ _ _ _ _ _ _ Hnew) as (Hb & Hc & _).
  exists content, result. rewrite Hfound in Hb. rewrite Hc. done.
Qed.

Lemma classify_verified env file_path lpr event gov_data st decided :
  (classify env file_path lpr event gov_data st).1 = Some decided ->
  VehicleEvent.status event <> VERIFIED ->
  VehicleEvent.status decided = VERIFIED ->
  has_alert gov_data = false /\ GovData.found gov_data = true
  /\ AIAnalysis.target_found (analyze_vehicle_image env file_path gov_data lpr st).1 = true
  /\ 75 <= AIAnalysis.confidence (analyze_vehicle_image env file_path gov_data lpr st).1.
Proof.
  unfold classify.
  destruct (has_alert gov_data).
  - destruct (alert_is gov_data "FAKE_PLATE").
    + unfold mbind, M_bind, mret, M_ret. rewrite detect_yellow_plate_run.
      destruct (bool_decide (file_path ∈ files st)); [|discriminate].
      destruct (truthy _); [|discriminate]. by intros [= <-].
    + repeat destruct (alert_is _ _); intros [= <-]; done.
  - destruct (GovData.found gov_data); cbn [negb]; [|by intros [= <-]].
    unfold mbind, M_bind, mret, M_ret.
    destruct (analyze_vehicle_image env file_path gov_data lpr st) as [ai st'].
    cbn [fst].
    destruct (AIAnalysis.target_found ai) eqn:Hfound; cbn [andb];
      [|by intros [= <-]].
    destruct (Config.AI_CONFIDENCE_THRESHOLD <=? AIAnalysis.confidence ai) eqn:Hconf;
      [|by intros [= <-]].
    intros _ _ _. apply Z.leb_le in Hconf. done.
Qed.

(** X8: a run saves the status VERIFIED only on evidence: the image was
    present, the registry record of the saved event is found and carries no
    alert, and the vision service replied with a text whose payload decodes,
    has a target-found value that reads as true and a confidence that
    converts to an integer of at least 75, which is the saved confidence.
    A call error, an undecodable reply or a missing image never verifies. *)
Theorem verified_only_on_evidence (env : Env) (file_path : string) (st : State)
    (saved : VehicleEvent.t) :
  events (process_new_file env file_path st).2 = events st ++ [saved] ->
  VehicleEvent.status saved = VERIFIED ->
  file_path ∈ files st
  /\ GovData.found (VehicleEvent.gov_data saved) = true
  /\ has_alert (VehicleEvent.gov_data saved) = false
  /\ exists content result,
       ai_analyze env file_path (VehicleEvent.gov_data saved) (VehicleEvent.lpr saved)
       = ReplyContent content
       /\ extract_json env content = Some result
       /\ as_bool env (dict_get result "target_found" (JBool false)) = Some true
       /\ py_int env (dict_get result "confidence" (JNum 0))
          = IntOk (AIAnalysis.confidence (VehicleEvent.ai_analysis saved))
       /\ 75 <= AIAnalysis.confidence (VehicleEvent.ai_analysis saved).
Proof.
  intros Hsaved Hstatus.
  destruct (process_new_file_saved env file_path st)
    as [Hsame | (meta & gov_data & st2 & decided & _ & Hfiles & _ & Hdecide & Hrow)].
  { rewrite Hsame in Hsaved. rewrite <- (app_nil_r (events st)) in Hsaved at 1.
    apply app_inv_head in Hsaved. discriminate. }
  rewrite Hrow in Hsaved. apply app_inv_head in Hsaved.
  assert (Heq : saved = VehicleEvent.set_id (Some (last_rowid st + 1)) decided)
    by congruence.
  clear Hsaved Hrow. subst saved. cbn in Hstatus |- *.
  pose proof (classify_gov_data _ _ _ _ _ _ _ Hdecide) as Hgov. cbn in Hgov.
  destruct (classify_verified _ _ _ _ _ _ _ Hdecide ltac:(discriminate) Hstatus)
    as (Hno & Hfound & Htarget & Hconf).
  pose proof Hdecide as Hfull.
  rewrite classify_full_verification in Hfull by done. cbn zeta in Hfull.
  assert (Hai : VehicleEvent.ai_analysis decided
                = (analyze_vehicle_image env file_path gov_data (lpr meta) st2).1)
    by (injection Hfull as <-; reflexivity).
  assert (Hlpr : VehicleEvent.lpr decided = lpr meta)
    by (injection Hfull as <-; reflexivity).
  rewrite Hgov, Hai, Hlpr.
  rewrite analyze_vehicle_image_run in Htarget, Hconf |- *.
  rewrite Hfiles in Htarget, Hconf |- *.
  destruct (decide (file_path ∈ files st)) as [Hin|Hout].
  - rewrite (bool_decide_eq_true_2 _ Hin) in Htarget, Hconf |- *.
    cbn [fst] in Htarget, Hconf |- *.
    destruct (analysis_of_reply_evidence _ _ Htarget)
      as (content & result & Hreply & Hjson & Hbool & Hint).
    split; [done|]. split; [done|]. split; [done|].
    exists content, result. done.
  - rewrite (bool_decide_eq_false_2 _ Hout) in Htarget. discriminate.
Qed.

Lemma verified_only_on_evidence_witness :
  let env := Fixture.env (Fixture.one_registry "main" "1234567" {[ "tozeret_nm" := "Toyota" ]})
               (ReplyContent (Fixture.verdict_text "true" "90")) (ReplyError "") in
  let file_path := Fixture.capture "1234567" in
  let st' := (process_new_file env file_path (Fixture.watching file_path)).2 in
  GovData.found (VehicleEvent.gov_data (last_saved st')) = true
  /\ has_alert (VehicleEvent.gov_data (last_saved st')) = false.
Proof.
  intros env file_path st'.
  destruct (verified_only_on_evidence env file_path (Fixture.watching file_path)
              (last_saved st') ltac:(vm_compute; reflexivity)
              ltac:(vm_compute; reflexivity)) as (_ & Hfound & Hno & _).
  exact (conj Hfound Hno).
Defined.

(** ** The run as a whole *)

Lemma store_untouched_refl st : store_untouched st st.
Proof. by unfold store_untouched. Qed.

Lemma store_untouched_trans st1 st2 st3 :
  store_untouched st1 st2 -> store_untouched st2 st3 -> store_untouched st1 st3.
Proof. unfold store_untouched. intros (? & ? & ? & ?) (? & ? & ? & ?). repeat split; congruence. Qed.

Lemma pre_screen_image_untouched env image_path st :
  store_untouched st (pre_screen_image env image_path st).2.
Proof. rewrite pre_screen_image_run. by destruct (bool_decide _). Qed.

Lemma get_vehicle_data_untouched env lpr st :
  store_untouched st (get_vehicle_data env lpr st).2.
Proof.
  unfold get_vehicle_data, search_all_databases.
  destruct (search_in_requests env Config.GOV_DATABASES Config.GOV_SEARCH_ORDER lpr st)
    as [sent ->]. done.
Qed.

Lemma classify_untouched env file_path lpr event gov_data st :
  store_untouched st (classify env file_path lpr event gov_data st).2.
Proof.
  unfold classify.
  destruct (has_alert gov_data).
  - destruct (alert_is gov_data "FAKE_PLATE").
    + unfold mbind, M_bind, mret, M_ret. rewrite detect_yellow_plate_run.
      destruct (bool_decide (file_path ∈ files st)); [|done].
      by destruct (truthy _).
    + by repeat destruct (alert_is _ _).
  - destruct (GovData.found gov_data); [|done]. cbn [negb].
    unfold mbind, M_bind, mret, M_ret. rewrite analyze_vehicle_image_run.
    destruct (bool_decide (file_path ∈ files st)); by destruct (_ && _).
Qed.


Lemma persist_effects file_path filename event st :
  let saved := VehicleEvent.set_id (Some (last_rowid st + 1)) event in
  let st' := (persist file_path filename event st).2 in
  events st' = events st ++ [saved]
  /\ last_rowid st' = last_rowid st + 1
  /\ files_processed st' = files_processed st + 1
  /\ requests st' = requests st
  /\ broadcasts st' = broadcasts st ++ [new_event saved; stats_update (get_stats st').1]
  /\ files st' =
       if bool_decide (file_path ∈ files st)
       then (files st ∖ {[file_path]}) ∪ {[Config.PROCESSED_FOLDER +:+ "/" +:+ filename]}
       else files st.
Proof.
  unfold persist, save_event, get_stats. run_monad. cbn.
  destruct (bool_decide (file_path ∈ files st)); cbn;
    repeat split; by rewrite <- app_assoc.
Qed.

(** The four ways a run ends, with the state it leaves. *)
Lemma process_new_file_cases env file_path st :
  let st' := (process_new_file env file_path st).2 in
  (is_valid (parse_filename (Py.path_name file_path)) = false /\ st' = st)
  \/ (is_valid (parse_filename (Py.path_name file_path)) = true
      /\ st' = with_files (files st ∖ {[file_path]}) st)
  \/ (is_valid (parse_filename (Py.path_name file_path)) = true
      /\ truthy (skip (pre_screen_image env file_path st).1) = true
      /\ st' = with_files (files (pre_screen_image env file_path st).2 ∖ {[file_path]})
                 (pre_screen_image env file_path st).2)
  \/ exists meta gov_data st2,
       parse_filename (Py.path_name file_path) = Valid meta
       /\ validate_lpr (lpr meta) = true
       /\ suffix_excluded (lpr meta) = Some false
       /\ truthy (skip (pre_screen_image env file_path st).1) = false
       /\ get_vehicle_data env (lpr meta) (pre_screen_image env file_path st).2
          = (gov_data, st2)
       /\ let decision :=
            classify env file_path (lpr meta)
              (VehicleEvent.set_gov_data gov_data
                 (initial_event env file_path (Py.path_name file_path) meta))
              gov_data st2 in
          match decision.1 with
          | None => st' = decision.2
          | Some event =>
              st' = (persist file_path (Py.path_name file_path) event decision.2).2
          end.
Proof.
  destruct (parse_filename (Py.path_name file_path)) as [err|meta] eqn:Hparse.
  { left. split; [done|].
    by rewrite process_new_file_unparsable by (by rewrite Hparse). }
  right.
  destruct (Py.isdigit (lpr meta)) eqn:Hdigit.
  2:{ left. split; [done|]. by rewrite (process_new_file_letters env file_path st meta). }
  destruct (validate_lpr (lpr meta)) eqn:Hvalid.
  2:{ left. split; [done|].
      by rewrite (process_new_file_bad_length env file_path st meta). }
  destruct (suffix_excluded (lpr meta)) as [[]|] eqn:Hsuffix.
  { left. split; [done|]. by rewrite (process_new_file_suffix env file_path st meta). }
  2:{ destruct (suffix_excluded_defined _ Hdigit) as [b Hb]. congruence. }
  right.
  rewrite (process_new_file_admitted env file_path st meta) by done.
  destruct (pre_screen_image env file_path st) as [pre_screen st1].
  cbn [fst snd].
  destruct (truthy (skip pre_screen)) eqn:Hskip; [by left|].
  right. destruct (get_vehicle_data env (lpr meta) st1) as [gov_data st2] eqn:Hgov.
  exists meta, gov_data, st2. do 5 (split; [done|]).
  cbn zeta.
  by destruct (classify _ _ _ _ _ st2) as [[event|] st3].
Qed.

(** X9: a run either leaves the store, the notification channel and the
    processed-files counter exactly as they were, or it saves one row and
    does all of the following together: the row gets the next id, the
    counter grows by one, and exactly two messages are broadcast, the new
    event as saved (with its id) followed by the statistics of the store
    that now includes it.  Nothing is broadcast without a saved row, and no
    row is saved without being broadcast. *)
Theorem process_new_file_saves_and_notifies (env : Env) (file_path : string) (st : State) :
  let st' := (process_new_file env file_path st).2 in
  store_untouched st st'
  \/ exists saved,
       events st' = events st ++ [saved]
       /\ VehicleEvent.id saved = Some (last_rowid st + 1)
       /\ last_rowid st' = last_rowid st + 1
       /\ files_processed st' = files_processed st + 1
       /\ broadcasts st'
          = broadcasts st ++ [new_event saved; stats_update (get_stats st').1]
       /\ total_events (get_stats st').1 = Z.of_nat (length (events st)) + 1.
Proof.
  destruct (process_new_file_cases env file_path st)
    as [[_ ->] | [[_ ->] | [(_ & _ & ->) |
         (meta & gov_data & st2 & _ & _ & _ & _ & Hgov & Hend)]]].
  - left. apply store_untouched_refl.
  - left. by unfold store_untouched.
  - left. pose proof (pre_screen_image_untouched env file_path st) as H.
    unfold store_untouched in *. exact H.
  - assert (H2 : store_untouched st st2).
    { eapply store_untouched_trans; [apply (pre_screen_image_untouched env file_path)|].
      pose proof (get_vehicle_data_untouched env (lpr meta)
                    (pre_screen_image env file_path st).2) as H.
      by rewrite Hgov in H. }
    cbn zeta in Hend.
    pose proof (classify_untouched env file_path (lpr meta)
                  (VehicleEvent.set_gov_data gov_data
                     (initial_event env file_path (Py.path_name file_path) meta))
                  gov_data st2) as H3.
    destruct (classify _ _ _ _ _ st2) as [[event|] st3]; cbn [fst snd] in Hend, H3.
    + right. pose proof (store_untouched_trans _ _ _ H2 H3) as (He & Hr & Hb & Hp).
      destruct (persist_effects file_path (Py.path_name file_path) event st3)
        as (Hev & Hrow & Hcount & _ & Hbr & _).
      rewrite <- Hend in Hev, Hrow, Hcount, Hbr.
      exists (VehicleEvent.set_id (Some (last_rowid st3 + 1)) event).
      rewrite Hev, Hrow, Hcount, Hbr, He, Hr, Hb, Hp.
      do 5 (split; [reflexivity|]).
      unfold get_stats. cbn [fst total_events]. rewrite Hev, He, length_app.
      simpl. lia.
    + left. rewrite Hend. by eapply store_untouched_trans.
Qed.



(** ** The event store, continued *)

Lemma lookup_absent event_id rows :
  Forall (fun e => VehicleEvent.id e <> Some event_id) rows ->
  filter (has_id event_id) rows = [].
Proof.
  induction 1 as [|e rows He _ IH]; [done|].
  rewrite filter_cons_False by done. exact IH.
Qed.

Lemma store_ok_fresh st e :
  store_ok st -> e ∈ events st -> VehicleEvent.id e <> Some (last_rowid st + 1).
Proof.
  intros (_ & _ & Hall) He.
  rewrite Forall_forall in Hall. destruct (Hall e He) as (i & Hi & Hrange).
  rewrite Hi. intros [= ->]. lia.
Qed.

Lemma get_event_by_id_save event_id e st :
  store_ok st ->
  (get_event_by_id event_id (save_event e st).2).1
  = if decide (event_id = last_rowid st + 1)
    then Some (VehicleEvent.set_id (Some (last_rowid st + 1)) e)
    else (get_event_by_id event_id st).1.
Proof.
  intros Hok. unfold get_event_by_id, save_event. cbn.
  rewrite filter_app.
  destruct (decide (event_id = last_rowid st + 1)) as [->|Hne].
  - rewrite lookup_absent.
    + by rewrite filter_cons_True by done.
    + apply Forall_forall. intros x Hx. by apply store_ok_fresh.
  - rewrite (filter_cons_False _ _ []).
    + by rewrite filter_nil, app_nil_r.
    + unfold has_id. cbn. intros [= H]. by apply Hne.
Qed.

Lemma save_event_ok e st : store_ok st -> store_ok (save_event e st).2.
Proof.
  intros Hok. pose proof Hok as (Hpos & Hnodup & Hall).
  unfold store_ok, save_event. cbn. split; [lia|]. split.
  - rewrite fmap_app. cbn. apply NoDup_app. split; [done|]. split.
    + intros x Hx Hnew. apply list_elem_of_singleton in Hnew. subst x.
      apply list_elem_of_fmap in Hx as (y & Hy & Hin).
      by apply (store_ok_fresh st y Hok Hin).
    + apply NoDup_singleton.
  - apply Forall_app. split.
    + eapply Forall_impl; [exact Hall|]. intros x (i & Hi & Hr). exists i. split; [done|lia].
    + constructor; [|constructor]. eexists. split; [reflexivity|]. lia.
Qed.

(** X11: saving and looking up agree.  In a store whose rows carry
    distinct issued ids, [save_event] returns the id after the counter,
    which no row had; afterwards [get_event_by_id] of that id returns the
    event as saved, with its id set, every other id looks up as before, and
    the store still has distinct issued ids. *)
Theorem save_then_get_event (e : VehicleEvent.t) (st : State) :
  store_ok st ->
  let event_id := (save_event e st).1 in
  let st' := (save_event e st).2 in
  event_id = last_rowid st + 1
  /\ (get_event_by_id event_id st).1 = None
  /\ (get_event_by_id event_id st').1
     = Some (VehicleEvent.set_id (Some event_id) e)
  /\ (forall other, other <> event_id ->
        (get_event_by_id other st').1 = (get_event_by_id other st).1)
  /\ store_ok st'.
Proof.
  intros Hok. cbn zeta.
  assert (Hid : (save_event e st).1 = last_rowid st + 1) by reflexivity.
  rewrite Hid. split; [reflexivity|]. split.
  { unfold get_event_by_id. cbn. rewrite lookup_absent; [done|].
    apply Forall_forall. intros x Hx. by apply store_ok_fresh. }
  split.
  { rewrite get_event_by_id_save by done. by rewrite decide_True. }
  split; [|by apply save_event_ok].
  intros other Hother. rewrite get_event_by_id_save by done.
  by rewrite decide_False.
Qed.

Lemma save_then_get_event_witness :
  let st := Fixture.store [Fixture.row 1 ALERT; Fixture.row 2 VERIFIED] in
  (get_event_by_id 3 (save_event (Fixture.row 7 UNKNOWN) st).2).1
  = Some (VehicleEvent.set_id (Some 3) (Fixture.row 7 UNKNOWN)).
Proof.
  intros st.
  assert (Hok : store_ok st).
  { unfold store_ok. split; [vm_compute; discriminate|]. split.
    - match goal with |- ?P => apply (bool_decide_unpack P) end. vm_compute. exact I.
    - repeat constructor; eexists; (split; [reflexivity|]); vm_compute;
        split; congruence. }
  exact (proj1 (proj2 (proj2 (save_then_get_event (Fixture.row 7 UNKNOWN) st Hok)))).
Defined.

Lemma filter_partition_length {A} (P : A -> Prop) `{!forall x, Decision (P x)}
    (l : list A) :
  (length (filter P l) + length (filter (fun x => ~ P x) l))%nat = length l.
Proof.
  induction l as [|x l IH]; [done|].
  destruct (decide (P x)) as [Hx|Hx].
  - rewrite filter_cons_True by done.
    rewrite (filter_cons_False (fun x => ~ P x)) by tauto. simpl. lia.
  - rewrite filter_cons_False by done.
    rewrite (filter_cons_True (fun x => ~ P x)) by done. simpl. lia.
Qed.

Lemma filter_has_id_unique event_id rows :
  NoDup (VehicleEvent.id <$> rows) ->
  (length (filter (has_id event_id) rows) <= 1)%nat.
Proof.
  induction rows as [|e rows IH]; [simpl; lia|].
  rewrite fmap_cons. intros [Hnot Hnodup]%NoDup_cons.
  destruct (decide (has_id event_id e)) as [He|He].
  - rewrite filter_cons_True by done.
    rewrite lookup_absent; [simpl; lia|].
    apply Forall_forall. intros x Hx Hid. apply Hnot.
    apply list_elem_of_fmap. exists x. split; [|done]. unfold has_id in He. congruence.
  - rewrite filter_cons_False by done. by apply IH.
Qed.

Lemma filter_none {A} (P : A -> Prop) `{!forall x, Decision (P x)} (l : list A) :
  Forall (fun x => ~ P x) l -> filter P l = [].
Proof.
  induction 1 as [|x l Hx _ IH]; [done|].
  by rewrite filter_cons_False by done.
Qed.

Lemma filter_all {A} (P : A -> Prop) `{!forall x, Decision (P x)} (l : list A) :
  Forall P l -> filter P l = l.
Proof.
  induction 1 as [|x l Hx _ IH]; [done|].
  rewrite filter_cons_True by done. by rewrite IH.
Qed.

Lemma with_events_same st : with_events (events st) (last_rowid st) st = st.
Proof. by destruct st. Qed.

Lemma NoDup_fmap_filter {A B} (f : A -> B) (P : A -> Prop)
    `{!forall x, Decision (P x)} (l : list A) :
  NoDup (f <$> l) -> NoDup (f <$> filter P l).
Proof.
  induction l as [|x l IH]; [done|].
  rewrite fmap_cons. intros [Hnot Hnodup]%NoDup_cons.
  destruct (decide (P x)) as [Hx|Hx].
  - rewrite filter_cons_True by done. rewrite fmap_cons. apply NoDup_cons.
    split; [|by apply IH].
    intros (y & Hy & Hin)%list_elem_of_fmap. apply Hnot.
    apply list_elem_of_fmap. exists y. split; [done|].
    by apply list_elem_of_filter in Hin as [_ ?].
  - rewrite filter_cons_False by done. by apply IH.
Qed.

Lemma Forall_filter_keep {A} (Q P : A -> Prop) `{!forall x, Decision (P x)}
    (l : list A) :
  Forall Q l -> Forall Q (filter P l).
Proof.
  rewrite !Forall_forall. intros Hall x [_ Hx]%list_elem_of_filter. by apply Hall.
Qed.

Lemma delete_event_ok event_id st : store_ok st -> store_ok (delete_event event_id st).2.
Proof.
  intros (Hpos & Hnodup & Hall). unfold store_ok, delete_event. cbn.
  split; [done|]. split.
  - by apply NoDup_fmap_filter.
  - by apply Forall_filter_keep.
Qed.

(** X12: deleting by id.  In a store with distinct issued ids,
    [delete_event] answers [True] exactly when a row had the id; afterwards
    the id looks up as absent, every other id looks up as before, at most
    one row is gone, and the AUTOINCREMENT counter is unchanged, so the id
    of a deleted row is never issued again.  When no row had the id the
    state is unchanged. *)
Theorem delete_event_effect (event_id : Z) (st : State) :
  store_ok st ->
  let deleted := (delete_event event_id st).1 in
  let st' := (delete_event event_id st).2 in
  (deleted = true <-> is_Some (get_event_by_id event_id st).1)
  /\ (get_event_by_id event_id st').1 = None
  /\ (forall other, other <> event_id ->
        (get_event_by_id other st').1 = (get_event_by_id other st).1)
  /\ (length (events st) - length (events st') <= 1)%nat
  /\ (deleted = false -> st' = st)
  /\ (deleted = true -> forall e, (save_event e st').1 <> event_id)
  /\ store_ok st'.
Proof.
  intros Hok. pose proof Hok as (Hpos & Hnodup & Hall). cbn zeta.
  pose proof (filter_partition_length (has_id event_id) (events st)) as Hsplit.
  pose proof (filter_has_id_unique event_id (events st) Hnodup) as Hone.
  unfold delete_event, get_event_by_id, save_event. cbn [fst snd events with_events last_rowid].
  split.
  { rewrite bool_decide_eq_true.
    destruct (filter (has_id event_id) (events st)) as [|x l] eqn:Hf; simpl in *.
    - split; [lia | by intros [? [=]]].
    - split; [by eexists | lia]. }
  split.
  { rewrite list_filter_filter, filter_none; [done|].
    apply Forall_forall. intros x _. tauto. }
  split.
  { intros other Hother. f_equal. rewrite list_filter_filter.
    apply list_filter_iff. intros x. unfold has_id. split; [tauto|].
    intros Hx. split; [done|]. congruence. }
  split; [lia|]. split.
  { intros Hno%bool_decide_eq_false.
    assert (Hnone : filter (has_id event_id) (events st) = []).
    { destruct (filter (has_id event_id) (events st)); [done | simpl in *; lia]. }
    rewrite (filter_all (fun e => ~ has_id event_id e)); [apply with_events_same|].
    apply Forall_forall. intros x Hx Hid.
    assert (Hin : x ∈ filter (has_id event_id) (events st))
      by (by apply list_elem_of_filter).
    rewrite Hnone in Hin. by apply elem_of_nil in Hin. }
  split; [|by apply delete_event_ok].
  intros Hyes%bool_decide_eq_true e Hreuse.
  destruct (filter (has_id event_id) (events st)) as [|x l] eqn:Hf;
    [simpl in *; lia|].
  assert (Hx : x ∈ filter (has_id event_id) (events st))
    by (rewrite Hf; apply list_elem_of_here).
  apply list_elem_of_filter in Hx as [Hid Hx].
  rewrite Forall_forall in Hall. destruct (Hall x Hx) as (i & Hi & Hr).
  unfold has_id in Hid. rewrite Hi in Hid. injection Hid as ->. lia.
Qed.

Lemma delete_event_effect_witness :
  let st := Fixture.store [Fixture.row 1 ALERT; Fixture.row 2 VERIFIED] in
  (get_event_by_id 2 (delete_event 2 st).2).1 = None.
Proof.
  intros st.
  assert (Hok : store_ok st).
  { unfold store_ok. split; [vm_compute; discriminate|]. split.
    - match goal with |- ?P => apply (bool_decide_unpack P) end. vm_compute. exact I.
    - repeat constructor; eexists; (split; [reflexivity|]); vm_compute;
        split; congruence. }
  exact (proj1 (proj2 (delete_event_effect 2 st Hok))).
Defined.

(** X13: the delete endpoint.  For an id that no row has, the endpoint
    answers 404 and changes nothing: no row is removed and nothing is
    broadcast.  For an id that a row has (in a store with distinct ids), it
    answers success, the store loses exactly that one row, and exactly one
    message is broadcast: the statistics of the store after the deletion. *)
Theorem api_delete_event_answers (event_id : Z) (st : State) :
  store_ok st ->
  ((get_event_by_id event_id st).1 = None ->
   api_delete_event event_id st = (HttpError 404, st))
  /\ (is_Some (get_event_by_id event_id st).1 ->
      let st' := (api_delete_event event_id st).2 in
      (api_delete_event event_id st).1 = Ok true
      /\ events st' = filter (fun e => ~ has_id event_id e) (events st)
      /\ length (events st) = S (length (events st'))
      /\ broadcasts st' = broadcasts st ++ [stats_update (get_stats st').1]).
Proof.
  intros Hok. pose proof Hok as (_ & Hnodup & _).
  pose proof (filter_partition_length (has_id event_id) (events st)) as Hsplit.
  pose proof (filter_has_id_unique event_id (events st) Hnodup) as Hone.
  unfold api_delete_event, delete_event, get_event_by_id, get_stats.
  run_monad. cbn [fst snd].
  destruct (filter (has_id event_id) (events st)) as [|x l] eqn:Hf.
  - split; [|by intros [? [=]]]. intros _.
    rewrite bool_decide_eq_false_2 by (simpl in *; lia). cbn [negb].
    rewrite (filter_all (fun e => ~ has_id event_id e)); [by rewrite with_events_same|].
    apply Forall_forall. intros y Hy Hid.
    assert (Hin : y ∈ filter (has_id event_id) (events st))
      by (by apply list_elem_of_filter).
    rewrite Hf in Hin. by apply elem_of_nil in Hin.
  - split; [discriminate|]. intros _.
    rewrite bool_decide_eq_true_2 by (simpl in *; lia). cbn.
    split; [done|]. split; [done|]. split; [simpl in *; lia | done].
Qed.

Lemma api_delete_event_answers_witness :
  let st := Fixture.store [Fixture.row 1 ALERT; Fixture.row 2 VERIFIED] in
  api_delete_event 5 st = (HttpError 404, st).
Proof.
  intros st.
  assert (Hok : store_ok st).
  { unfold store_ok. split; [vm_compute; discriminate|]. split.
    - match goal with |- ?P => apply (bool_decide_unpack P) end. vm_compute. exact I.
    - repeat constructor; eexists; (split; [reflexivity|]); vm_compute;
        split; congruence. }
  apply (proj1 (api_delete_event_answers 5 st Hok)). reflexivity.
Defined.

Lemma count_status_kept value rows :
  value ∈ alert_statuses ->
  count_status value (filter is_alert_row rows) = count_status value rows.
Proof.
  intros Hv. unfold count_status. f_equal. f_equal.
  rewrite list_filter_filter. apply list_filter_iff.
  intros e. unfold has_status, is_alert_row. split; [tauto|].
  intros He. split; [done|]. by rewrite He.
Qed.

Lemma count_status_dropped value rows :
  value ∉ alert_statuses ->
  count_status value (filter is_alert_row rows) = 0.
Proof.
  intros Hv. unfold count_status. rewrite list_filter_filter, filter_none; [done|].
  apply Forall_forall. intros e _ [He Hrow]. unfold has_status in He.
  unfold is_alert_row in Hrow. rewrite He in Hrow. done.
Qed.

(** X14: clearing is idempotent and shows in the statistics.  After
    [delete_non_alert_events] the verified and unknown counts are 0, the
    alert count is what it was, and the total has dropped by the number the
    call reported; a second call reports 0 and leaves the state as the
    first left it; a store with distinct issued ids stays so. *)
Theorem clear_then_stats (st : State) :
  let deleted := (delete_non_alert_events st).1 in
  let st' := (delete_non_alert_events st).2 in
  verified_count (get_stats st').1 = 0
  /\ unknown_count (get_stats st').1 = 0
  /\ alert_count (get_stats st').1 = alert_count (get_stats st).1
  /\ total_events (get_stats st').1 = total_events (get_stats st).1 - deleted
  /\ 0 <= deleted
  /\ delete_non_alert_events st' = (0, st')
  /\ (store_ok st -> store_ok st').
Proof.
  cbn zeta. unfold get_stats, delete_non_alert_events.
  cbn [fst snd events with_events last_rowid verified_count unknown_count
       alert_count total_events].
  pose proof (length_filter is_alert_row (events st)) as Hlen.
  split.
  { apply count_status_dropped. intros H.
    repeat (apply elem_of_cons in H as [H|H]; [discriminate|]). by apply elem_of_nil in H. }
  split.
  { apply count_status_dropped. intros H.
    repeat (apply elem_of_cons in H as [H|H]; [discriminate|]). by apply elem_of_nil in H. }
  split; [apply count_status_kept, list_elem_of_here|].
  split; [lia|]. split; [lia|]. split.
  - rewrite (filter_all is_alert_row (filter is_alert_row (events st))).
    + rewrite Nat.sub_diag. f_equal.
    + apply Forall_forall. by intros e [He _]%list_elem_of_filter.
  - intros (Hpos & Hnodup & Hall). unfold store_ok. cbn.
    split; [done|]. split; [by apply NoDup_fmap_filter | by apply Forall_filter_keep].
Qed.

Lemma clear_then_stats_witness :
  let st := Fixture.store [Fixture.row 1 VERIFIED; Fixture.row 2 FAKE_PLATE] in
  store_ok (delete_non_alert_events st).2.
Proof.
  intros st.
  apply (proj2 (proj2 (proj2 (proj2 (proj2 (proj2 (clear_then_stats st))))))).
  unfold store_ok. split; [vm_compute; discriminate|]. split.
  - match goal with |- ?P => apply (bool_decide_unpack P) end. vm_compute. exact I.
  - repeat constructor; eexists; (split; [reflexivity|]); vm_compute;
      split; congruence.
Defined.




Lemma count_status_cons value e rows :
  count_status value (e :: rows)
  = (if decide (status_value (VehicleEvent.status e) = value) then 1 else 0)
    + count_status value rows.
Proof.
  unfold count_status.
  destruct (decide (status_value (VehicleEvent.status e) = value)) as [He|He].
  - rewrite filter_cons_True by done. simpl length. lia.
  - rewrite filter_cons_False by done. lia.
Qed.

Lemma status_counted_once (s : EventStatus) :
  (if decide (status_value s = "VERIFIED") then 1 else 0)
  + (if decide (status_value s = "ALERT") then 1 else 0)
  + (if decide (status_value s = "UNKNOWN") then 1 else 0)
  + (if decide (s ∈ [PROCESSING; ERROR; NO_LICENSE; OFF_ROAD; FAKE_PLATE])
     then 1 else 0)
  = 1.
Proof. destruct s; vm_compute; reflexivity. Qed.

Lemma length_filter_cons {A} (P : A -> Prop) `{!forall x, Decision (P x)}
    (x : A) (l : list A) :
  Z.of_nat (length (filter P (x :: l)))
  = (if decide (P x) then 1 else 0) + Z.of_nat (length (filter P l)).
Proof.
  destruct (decide (P x)) as [Hx|Hx].
  - rewrite filter_cons_True by done. simpl length. lia.
  - rewrite filter_cons_False by done. lia.
Qed.

(** X16: the statistics count a row in at most one of the three
    counters.  The total is the number of rows; it equals the verified,
    alert and unknown counts plus the number of rows of the other statuses
    (the special alerts NO_LICENSE, OFF_ROAD and FAKE_PLATE among them),
    which appear in the total only. *)
Theorem get_stats_partition (st : State) :
  let stats := (get_stats st).1 in
  total_events stats = Z.of_nat (length (events st))
  /\ total_events stats
     = verified_count stats + alert_count stats + unknown_count stats
       + Z.of_nat (length (filter (fun e => VehicleEvent.status e
                                            ∈ [PROCESSING; ERROR; NO_LICENSE;
                                               OFF_ROAD; FAKE_PLATE])
                                  (events st)))
  /\ (get_stats st).2 = st.
Proof.
  cbn zeta. unfold get_stats.
  cbn [fst snd total_events verified_count alert_count unknown_count].
  split; [done|]. split; [|done].
  induction (events st) as [|e rows IH]; [done|].
  rewrite !count_status_cons, length_filter_cons. cbn [length].
  rewrite Nat2Z.inj_succ, IH.
  pose proof (status_counted_once (VehicleEvent.status e)) as Hone.
  repeat case_decide; first [lia | contradiction | congruence].
Qed.
